(** * DevCamper API: error normalizer and resource controllers

    A shallow embedding of [middleware/error.js], [controllers/courses.js]
    and [controllers/bootcamps.js].  Controllers are functions from a
    request and the state of the world (the two collections and the upload
    directory) to a new world and an outcome: a response written with
    [res.status(..).json(..)], an error handed to [next], or an exception.
    The collaborators that live outside these files (schema validation, the
    geocoder, the spatial query, the file move) are the fields of
    [Collaborators]. *)

From Stdlib Require Import String Ascii List ZArith Bool Lia DecimalString.
Import ListNotations.
Local Open Scope string_scope.
Local Open Scope Z_scope.
Local Set Warnings "-register-all".

(** ** JSON values written by [res.json] *)

Inductive Json : Type :=
| JNull
| JBool (b : bool)
| JNum (n : Z)
| JStr (s : string)
| JArr (items : list Json)
| JObj (props : list (string * Json)).

Record Response : Type := mkResponse { status : Z; json : Json }.

(** ** JavaScript odds and ends *)

(** [v === s] for a string literal [s]; a property that may be [undefined]
    is an [option]. *)
Definition strict_eq_str (v : option string) (s : string) : bool :=
  match v with
  | Some x => String.eqb x s
  | None => false
  end.

(** [v === n] for a number literal [n]. *)
Definition strict_eq_num (v : option Z) (n : Z) : bool :=
  match v with
  | Some x => Z.eqb x n
  | None => false
  end.

(** [v || d] on numbers: [undefined] and [0] are falsy. *)
Definition or_num (v : option Z) (d : Z) : Z :=
  match v with
  | Some x => if Z.eqb x 0 then d else x
  | None => d
  end.

(** [v || d] on strings: [undefined] and the empty string are falsy. *)
Definition or_str (v : option string) (d : string) : string :=
  match v with
  | Some x => if String.eqb x "" then d else x
  | None => d
  end.

(** What a constructor of [Error] receives as its message: a string, or
    the array of strings built by [errorHandler] for validation errors. *)
Inductive MsgArg : Type :=
| MStr (s : string)
| MArr (items : list string).

(** JavaScript's [ToString]: an array is its elements joined by commas. *)
Definition toString (m : MsgArg) : string :=
  match m with
  | MStr s => s
  | MArr items => String.concat "," items
  end.

(** ** Error objects *)

Module Err.

(** The properties of an error object that the program reads.  [errors]
    is the [errors] object of a Mongoose validation error: the failing
    paths in insertion order, each with its message. *)
Record t : Type := mk {
  name : option string;
  code : option Z;
  message : option string;
  statusCode : option Z;
  errors : option (list (string * string))
}.

Definition set_message (e : t) (m : option string) : t :=
  mk (name e) (code e) m (statusCode e) (errors e).

End Err.

(** Modelled from the spec: [utils/errorResponse.js], the class of the Error
    Value, is outside the files embedded here.  The Error Value is
    "{message: string, statusCode: integer}"; the class extends [Error], so
    the message it is given goes through [ToString] and a missing second
    argument leaves [statusCode] undefined. *)
Definition ErrorResponse (message : MsgArg) (statusCode : option Z) : Err.t :=
  Err.mk (Some "Error") None (Some (toString message)) statusCode None.

(** A [TypeError] raised by the engine; the text is the engine's. *)
Definition TypeError (text : string) : Err.t :=
  Err.mk (Some "TypeError") None (Some text) None None.

(** Normal or abrupt completion of a function that may throw. *)
Inductive Completion (A : Type) : Type :=
| Return (a : A)
| Throw (e : Err.t).
Arguments Return {A} a.
Arguments Throw {A} e.

(** ** middleware/error.js *)

(** The [error] variable of [errorHandler] just before the response is
    written: the copy of [err] with its message, replaced in turn by each
    of the three [if] statements whose test holds.  [Object.values] throws
    when [err.errors] is undefined.  The [console.log] is left out. *)
Definition normalize (err : Err.t) : Completion Err.t :=
  let error := Err.set_message err (Err.message err) in
  let error :=
    if strict_eq_str (Err.name err) "CastError"
    then ErrorResponse (MStr "Resource not found") (Some 404)
    else error in
  let error :=
    if strict_eq_num (Err.code err) 11000
    then ErrorResponse (MStr "Duplicate field value entered") (Some 404)
    else error in
  if strict_eq_str (Err.name err) "ValidationError"
  then
    match Err.errors err with
    | None => Throw (TypeError "Cannot convert undefined or null to object")
    | Some errs =>
        let message := map (fun value => snd value) errs in
        Return (ErrorResponse (MArr message) (Some 400))
    end
  else Return error.

Definition errorHandler (err : Err.t) : Completion Response :=
  match normalize err with
  | Throw e => Throw e
  | Return error =>
      Return (mkResponse
                (or_num (Err.statusCode error) 500)
                (JObj [("success", JBool false);
                       ("error", JStr (or_str (Err.message error) "Server Error"))]))
  end.

(** ** The two envelopes of the specification *)

Fixpoint lookup {A : Type} (k : string) (props : list (string * A)) : option A :=
  match props with
  | [] => None
  | (k', v) :: rest => if String.eqb k k' then Some v else lookup k rest
  end.

Definition is_num (j : Json) : bool :=
  match j with JNum _ => true | _ => false end.

Definition is_str (j : Json) : bool :=
  match j with JStr _ => true | _ => false end.

Definition is_true (j : Json) : bool :=
  match j with JBool true => true | _ => false end.

Definition is_false (j : Json) : bool :=
  match j with JBool false => true | _ => false end.

Definition keys_within (allowed : list string) (props : list (string * Json)) : bool :=
  forallb (fun kv => existsb (String.eqb (fst kv)) allowed) props.

(** Success Envelope: {success: true, data: T, count?: integer}. *)
Definition success_envelope (j : Json) : bool :=
  match j with
  | JObj props =>
      keys_within ["success"; "data"; "count"] props
      && match lookup "success" props with Some v => is_true v | None => false end
      && match lookup "data" props with Some _ => true | None => false end
      && match lookup "count" props with Some v => is_num v | None => true end
  | _ => false
  end.

(** Failure Envelope: {success: false, error: string}. *)
Definition failure_envelope (j : Json) : bool :=
  match j with
  | JObj props =>
      keys_within ["success"; "error"] props
      && match lookup "success" props with Some v => is_false v | None => false end
      && match lookup "error" props with Some v => is_str v | None => false end
  | _ => false
  end.

Definition envelope (j : Json) : bool :=
  success_envelope j || failure_envelope j.

Definition failure (msg : string) : Json :=
  JObj [("success", JBool false); ("error", JStr msg)].

(** ** The storage layer

    A collection is the list of its documents in natural order.  What the
    storage layer decides on its own (which identifiers cast to an
    ObjectId, which writes its validators or unique indexes reject, the
    identifier of a new document) is passed in by the caller. *)

Definition Body : Type := list (string * string).

(** [body.k = v] *)
Fixpoint set_field (k v : string) (body : Body) : Body :=
  match body with
  | [] => [(k, v)]
  | (k', v') :: rest =>
      if String.eqb k k' then (k, v) :: rest else (k', v') :: set_field k v rest
  end.

Definition field_or (k : string) (body : Body) (d : string) : string :=
  match lookup k body with
  | Some v => v
  | None => d
  end.

(** The error Mongoose raises for an identifier that is no ObjectId. *)
Definition CastError (value : string) : Err.t :=
  Err.mk (Some "CastError") None
         (Some ("Cast to ObjectId failed for value " ++ value)) None None.

(** Modelled from the spec: [models/Bootcamp.js] is outside the files
    embedded here.  "Resource entities are owned and defined entirely by the
    storage layer": a document keeps its identifier, its owning user and a
    few fields, and the operations are those of a Mongoose model that the
    controllers call. *)
Module Bootcamp.

Record doc : Type := mk {
  _id : string;
  user : string;
  name : string;
  description : string;
  photo : string
}.

Definition toJSON (d : doc) : Json :=
  JObj [("_id", JStr (_id d)); ("user", JStr (user d)); ("name", JStr (name d));
        ("description", JStr (description d)); ("photo", JStr (photo d))].

Definition assign (body : Body) (d : doc) : doc :=
  mk (_id d)
     (field_or "user" body (user d))
     (field_or "name" body (name d))
     (field_or "description" body (description d))
     (field_or "photo" body (photo d)).

Definition has_id (id : string) (d : doc) : bool := String.eqb (_id d) id.

Definition owned_by (uid : string) (d : doc) : bool := String.eqb (user d) uid.

Section Model.

Variable isObjectId : string -> bool.
Variable fault : Body -> list doc -> option Err.t.
Variable newId : list doc -> string.

Definition findById (id : string) (store : list doc) : Completion (option doc) :=
  if isObjectId id then Return (find (has_id id) store) else Throw (CastError id).

(** [Bootcamp.findOne({ user: uid })] *)
Definition findOne (uid : string) (store : list doc) : Completion (option doc) :=
  if isObjectId uid then Return (find (owned_by uid) store) else Throw (CastError uid).

Definition create (body : Body) (store : list doc) : Completion (doc * list doc) :=
  match fault body store with
  | Some e => Throw e
  | None =>
      let d := assign body (mk (newId store) "" "" "" "no-photo.jpg") in
      Return (d, (store ++ [d])%list)
  end.

Fixpoint update (id : string) (body : Body) (store : list doc) : list doc :=
  match store with
  | [] => []
  | d :: rest =>
      if has_id id d then assign body d :: rest else d :: update id body rest
  end.

(** [Bootcamp.findByIdAndUpdate(id, body, { new: true, runValidators })] *)
Definition findByIdAndUpdate (runValidators : bool) (id : string) (body : Body)
           (store : list doc) : Completion (option doc * list doc) :=
  if isObjectId id then
    match (if runValidators then fault body store else None) with
    | Some e => Throw e
    | None => let store' := update id body store in
              Return (find (has_id id) store', store')
    end
  else Throw (CastError id).

(** [bootcamp.remove()] *)
Definition remove (d : doc) (store : list doc) : list doc :=
  filter (fun d' => negb (has_id (_id d) d')) store.

End Model.

End Bootcamp.

(** Modelled from the spec: [models/Course.js] is outside the files
    embedded here; as for bootcamps, with the parent bootcamp in place of the
    owner. *)
Module Course.

Record doc : Type := mk {
  _id : string;
  bootcamp : string;
  title : string
}.

Definition toJSON (d : doc) : Json :=
  JObj [("_id", JStr (_id d)); ("bootcamp", JStr (bootcamp d)); ("title", JStr (title d))].

Definition assign (body : Body) (d : doc) : doc :=
  mk (_id d) (field_or "bootcamp" body (bootcamp d)) (field_or "title" body (title d)).

Definition has_id (id : string) (d : doc) : bool := String.eqb (_id d) id.

Section Model.

Variable isObjectId : string -> bool.
Variable fault : Body -> list doc -> option Err.t.
Variable newId : list doc -> string.

Definition findById (id : string) (store : list doc) : Completion (option doc) :=
  if isObjectId id then Return (find (has_id id) store) else Throw (CastError id).

(** [Course.find({ bootcamp: id })] *)
Definition find_bootcamp (id : string) (store : list doc) : Completion (list doc) :=
  if isObjectId id
  then Return (filter (fun d => String.eqb (bootcamp d) id) store)
  else Throw (CastError id).

Definition create (body : Body) (store : list doc) : Completion (doc * list doc) :=
  match fault body store with
  | Some e => Throw e
  | None =>
      let d := assign body (mk (newId store) "" "") in
      Return (d, (store ++ [d])%list)
  end.

Fixpoint update (id : string) (body : Body) (store : list doc) : list doc :=
  match store with
  | [] => []
  | d :: rest =>
      if has_id id d then assign body d :: rest else d :: update id body rest
  end.

Definition findByIdAndUpdate (runValidators : bool) (id : string) (body : Body)
           (store : list doc) : Completion (option doc * list doc) :=
  if isObjectId id then
    match (if runValidators then fault body store else None) with
    | Some e => Throw e
    | None => let store' := update id body store in
              Return (find (has_id id) store', store')
    end
  else Throw (CastError id).

Definition remove (d : doc) (store : list doc) : list doc :=
  filter (fun d' => negb (has_id (_id d) d')) store.

End Model.

End Course.

(** ** Requests, the world and the collaborators *)

Module File.

(** An entry of [req.files], as express-fileupload builds it. *)
Record t : Type := mk {
  name : string;
  mimetype : string;
  size : Z
}.

Definition set_name (f : t) (n : string) : t := mk n (mimetype f) (size f).

End File.

(** [req.user], set by the [protect] middleware. *)
Record User : Type := mkUser { id : string; role : string }.

Record Request : Type := mkRequest {
  params_id : string;
  params_bootcampId : option string;
  params_zipcode : string;
  params_distance : string;
  user : User;
  body : Body;
  files : option (list (string * File.t));
  advancedResults : Json
}.

(** The two collections and the files moved into the upload directory. *)
Record World : Type := mkWorld {
  bootcamps : list Bootcamp.doc;
  courses : list Course.doc;
  disk : list (string * File.t)
}.

Definition set_bootcamps (w : World) (bs : list Bootcamp.doc) : World :=
  mkWorld bs (courses w) (disk w).

Definition set_courses (w : World) (cs : list Course.doc) : World :=
  mkWorld (bootcamps w) cs (disk w).

Definition write_file (w : World) (path : string) (f : File.t) : World :=
  mkWorld (bootcamps w) (courses w) ((path, f) :: disk w).

(** A place as the geocoder returns it; [num] is the type of JavaScript
    numbers, kept abstract. *)
Record Place (num : Type) : Type := mkPlace { latitude : num; longitude : num }.
Arguments mkPlace {num}.
Arguments latitude {num}.
Arguments longitude {num}.

(** What the controllers use and do not define: the storage layer's own
    decisions, Mongoose's [populate], JavaScript's numbers, the geocoder,
    the spatial query [$geoWithin/$centerSphere], Node's [path.parse(..).ext],
    the file move of express-fileupload and the process environment. *)
Record Collaborators : Type := mkCollaborators {
  isObjectId : string -> bool;
  bootcampFault : Body -> list Bootcamp.doc -> option Err.t;
  courseFault : Body -> list Course.doc -> option Err.t;
  newBootcampId : list Bootcamp.doc -> string;
  newCourseId : list Course.doc -> string;
  populate : Course.doc -> list Bootcamp.doc -> option Json;
  num : Type;
  toNumber : string -> num;
  ofZ : Z -> num;
  div : num -> num -> num;
  geocode : string -> Completion (list (Place num));
  centerSphere : num -> num -> num -> Bootcamp.doc -> bool;
  ext : string -> string;
  mv : File.t -> string -> option Err.t;
  MAX_FILE_UPLOAD : option Z;
  MAX_FILE_UPLOAD_text : string;
  FILE_UPLOAD_PATH : string
}.

(** ** Handlers: state and exceptions *)

(** What a handler did with the request: wrote a response or called
    [next] with an error. *)
Inductive Outcome : Type :=
| Respond (r : Response)
| Next (e : Err.t).

(** An [async] function body: it reads and writes the world and either
    yields a value or throws (its promise rejects). *)
Definition M (A : Type) : Type := World -> World * Completion A.

Definition ret {A : Type} (a : A) : M A := fun w => (w, Return a).

Definition throw {A : Type} (e : Err.t) : M A := fun w => (w, Throw e).

Definition bind {A B : Type} (m : M A) (k : A -> M B) : M B :=
  fun w =>
    match m w with
    | (w', Return a) => k a w'
    | (w', Throw e) => (w', Throw e)
    end.

Notation "x <- m ;; k" := (bind m (fun x => k))
  (at level 61, m at next level, right associativity).

(** [await] of a read on one collection. *)
Definition await {S A : Type} (sel : World -> S) (op : S -> Completion A) : M A :=
  fun w => (w, op (sel w)).

(** [await] of a write on one collection. *)
Definition await_write {S A : Type} (sel : World -> S) (upd : World -> S -> World)
           (op : S -> Completion (A * S)) : M A :=
  fun w =>
    match op (sel w) with
    | Return (a, s) => (upd w s, Return a)
    | Throw e => (w, Throw e)
    end.

(** [await] of a collaborator that does not touch the world. *)
Definition call {A : Type} (c : Completion A) : M A := fun w => (w, c).

Definition modify (f : World -> World) : M unit := fun w => (f w, Return tt).

(** [res.status(s).json(j)] *)
Definition respond (s : Z) (j : Json) : M Outcome := ret (Respond (mkResponse s j)).

(** [return next(e)] *)
Definition next (e : Err.t) : M Outcome := ret (Next e).

Definition Controller : Type := Request -> M Outcome.

(** Modelled from the spec: [middleware/async.js] is outside the files
    embedded here.  "an error forwarded to the Error Normalizer": the wrapper runs
    the handler and passes a rejection to [next]. *)
Definition asyncHandler (fn : Controller) (req : Request) (w : World) : World * Outcome :=
  match fn req w with
  | (w', Return o) => (w', o)
  | (w', Throw e) => (w', Next e)
  end.

(** The route ends in the error handler ([app.use(errorHandler)]): what the
    client receives for a request. *)
Definition serve (fn : Controller) (req : Request) (w : World) : World * Completion Response :=
  match asyncHandler fn req w with
  | (w', Respond r) => (w', Return r)
  | (w', Next e) => (w', errorHandler e)
  end.

Definition truthy (s : option string) : bool :=
  match s with
  | Some x => negb (String.eqb x "")
  | None => false
  end.

(** A value inside a template literal. *)
Definition show (s : option string) : string :=
  match s with
  | Some x => x
  | None => "undefined"
  end.

Definition is_some {A : Type} (v : option A) : bool :=
  match v with
  | Some _ => true
  | None => false
  end.

Definition nullable {A : Type} (f : A -> Json) (v : option A) : Json :=
  match v with
  | Some a => f a
  | None => JNull
  end.

Definition count {A : Type} (l : list A) : Json := JNum (Z.of_nat (length l)).

Section Controllers.

Variable sys : Collaborators.

Definition Bootcamp_findById (id : string) : M (option Bootcamp.doc) :=
  await bootcamps (Bootcamp.findById (isObjectId sys) id).

Definition Bootcamp_findOne (uid : string) : M (option Bootcamp.doc) :=
  await bootcamps (Bootcamp.findOne (isObjectId sys) uid).

Definition Bootcamp_create (b : Body) : M Bootcamp.doc :=
  await_write bootcamps set_bootcamps
              (Bootcamp.create (bootcampFault sys) (newBootcampId sys) b).

Definition Bootcamp_findByIdAndUpdate (runValidators : bool) (id : string) (b : Body)
  : M (option Bootcamp.doc) :=
  await_write bootcamps set_bootcamps
              (Bootcamp.findByIdAndUpdate (isObjectId sys) (bootcampFault sys)
                                          runValidators id b).

Definition Bootcamp_remove (d : Bootcamp.doc) : M unit :=
  modify (fun w => set_bootcamps w (Bootcamp.remove d (bootcamps w))).

Definition Course_findById (id : string) : M (option Course.doc) :=
  await courses (Course.findById (isObjectId sys) id).

Definition Course_find (bootcampId : string) : M (list Course.doc) :=
  await courses (Course.find_bootcamp (isObjectId sys) bootcampId).

Definition Course_create (b : Body) : M Course.doc :=
  await_write courses set_courses
              (Course.create (courseFault sys) (newCourseId sys) b).

Definition Course_findByIdAndUpdate (runValidators : bool) (id : string) (b : Body)
  : M (option Course.doc) :=
  await_write courses set_courses
              (Course.findByIdAndUpdate (isObjectId sys) (courseFault sys)
                                        runValidators id b).

Definition Course_remove (d : Course.doc) : M unit :=
  modify (fun w => set_courses w (Course.remove d (courses w))).

(** *** controllers/courses.js *)

Definition getCourses : Controller := fun req =>
  if truthy (params_bootcampId req) then
    courses <- Course_find (show (params_bootcampId req)) ;;
    respond 200 (JObj [("success", JBool true);
                       ("count", count courses);
                       ("data", JArr (map Course.toJSON courses))])
  else
    respond 200 (advancedResults req).

(** [Course.findById] resolves to [null] for an unknown identifier, and
    [.populate] is then read from [null]. *)
Definition getCourse : Controller := fun req =>
  found <- Course_findById (params_id req) ;;
  course <- match found with
            | None => throw (TypeError "Cannot read property 'populate' of null")
            | Some c => await bootcamps (fun bs => Return (populate sys c bs))
            end ;;
  match course with
  | None =>
      next (ErrorResponse (MStr ("No course found with the id: " ++ params_id req)) None)
  | Some course =>
      respond 200 (JObj [("sucess", JBool true); ("data", course)])
  end.

Definition addCourse : Controller := fun req =>
  let body := match params_bootcampId req with
              | Some b => set_field "bootcamp" b (body req)
              | None => body req
              end in
  bootcamp <- match params_bootcampId req with
              | Some b => Bootcamp_findById b
              | None => ret None
              end ;;
  match bootcamp with
  | None =>
      next (ErrorResponse
              (MStr ("No bootcamp with the id: " ++ show (params_bootcampId req))) None)
  | Some _ =>
      course <- Course_create body ;;
      respond 200 (JObj [("sucess", JBool true); ("data", Course.toJSON course)])
  end.

Definition updateCourse : Controller := fun req =>
  course <- Course_findById (params_id req) ;;
  match course with
  | None =>
      next (ErrorResponse (MStr ("No course with the id: " ++ params_id req)) None)
  | Some _ =>
      course <- Course_findByIdAndUpdate true (params_id req) (body req) ;;
      respond 200 (JObj [("sucess", JBool true); ("data", nullable Course.toJSON course)])
  end.

Definition deleteCourse : Controller := fun req =>
  course <- Course_findById (params_id req) ;;
  match course with
  | None =>
      next (ErrorResponse (MStr ("Course not found with the id: " ++ params_id req)) None)
  | Some course =>
      _ <- Course_remove course ;;
      respond 200 (JObj [("sucess", JBool true); ("data", Course.toJSON course)])
  end.

(** *** controllers/bootcamps.js *)

Definition getBootcamps : Controller := fun req =>
  respond 200 (advancedResults req).

Definition getBootcampById : Controller := fun req =>
  bootcamp <- Bootcamp_findById (params_id req) ;;
  match bootcamp with
  | None =>
      next (ErrorResponse
              (MStr ("Bootcamp not found with the id of " ++ params_id req)) (Some 404))
  | Some bootcamp =>
      respond 200 (JObj [("success", JBool true); ("data", Bootcamp.toJSON bootcamp)])
  end.

Definition createBootcamp : Controller := fun req =>
  let body := set_field "user" (id (user req)) (body req) in
  publishedBootcamp <- Bootcamp_findOne (id (user req)) ;;
  if is_some publishedBootcamp && negb (String.eqb (role (user req)) "admin") then
    next (ErrorResponse
            (MStr ("The user with ID " ++ id (user req)
                   ++ " has already published a bootcamp")) (Some 400))
  else
    bootcamp <- Bootcamp_create body ;;
    respond 201 (JObj [("sucess", JBool true); ("data", Bootcamp.toJSON bootcamp)]).

Definition updateBootcamp : Controller := fun req =>
  bootcamp <- Bootcamp_findById (params_id req) ;;
  match bootcamp with
  | None =>
      next (ErrorResponse
              (MStr ("Bootcamp not found with the id of " ++ params_id req)) (Some 404))
  | Some bootcamp =>
      if negb (String.eqb (Bootcamp.user bootcamp) (id (user req)))
         && negb (String.eqb (role (user req)) "admin")
      then
        next (ErrorResponse
                (MStr ("User " ++ params_id req
                       ++ " is not authorized to update this bootcamp")) (Some 401))
      else
        bootcamp <- Bootcamp_findByIdAndUpdate true (params_id req) (body req) ;;
        respond 200 (JObj [("success", JBool true);
                           ("data", nullable Bootcamp.toJSON bootcamp)])
  end.

(** The owner test compares with the string literal ['req.user.id']. *)
Definition deleteBootcamp : Controller := fun req =>
  bootcamp <- Bootcamp_findById (params_id req) ;;
  match bootcamp with
  | None =>
      next (ErrorResponse
              (MStr ("Bootcamp not found with the id of " ++ params_id req)) (Some 404))
  | Some bootcamp =>
      if negb (String.eqb (Bootcamp.user bootcamp) "req.user.id")
         && negb (String.eqb (role (user req)) "admin")
      then
        next (ErrorResponse
                (MStr ("User " ++ params_id req
                       ++ " is not authorized to delete this bootcamp")) (Some 401))
      else
        _ <- Bootcamp_remove bootcamp ;;
        respond 200 (JObj [("success", JBool true); ("data", JObj [])])
  end.

Definition earthRadius : Z := 6963.

Definition getBootcampsInRadius : Controller := fun req =>
  let zipcode := params_zipcode req in
  let distance := params_distance req in
  loc <- call (geocode sys zipcode) ;;
  match loc with
  | [] => throw (TypeError "Cannot read property 'latitude' of undefined")
  | loc0 :: _ =>
      let lat := latitude loc0 in
      let lng := longitude loc0 in
      let radius := div sys (toNumber sys distance) (ofZ sys earthRadius) in
      bootcamps <- await bootcamps
                     (fun bs => Return (filter (centerSphere sys lng lat radius) bs)) ;;
      respond 200 (JObj [("success", JBool true);
                         ("count", count bootcamps);
                         ("data", JArr (map Bootcamp.toJSON bootcamps))])
  end.

(** [file.size > process.env.MAX_FILE_UPLOAD]: false when the variable is
    unset or is not a number. *)
Definition too_large (size : Z) : bool :=
  match MAX_FILE_UPLOAD sys with
  | Some m => Z.ltb m size
  | None => false
  end.

(** The callback of [file.mv] is run in sequence: with the error of the
    move, or after the file is written. *)
Definition bootcampPhotoUpload : Controller := fun req =>
  bootcamp <- Bootcamp_findById (params_id req) ;;
  match bootcamp with
  | None =>
      next (ErrorResponse
              (MStr ("Bootcamp not found with the id of " ++ params_id req)) (Some 404))
  | Some bootcamp =>
      match files req with
      | None => next (ErrorResponse (MStr "Please upload a file") (Some 400))
      | Some files =>
          match lookup "file" files with
          | None => throw (TypeError "Cannot read property 'mimetype' of undefined")
          | Some file =>
              if negb (String.prefix "image" (File.mimetype file)) then
                next (ErrorResponse (MStr "Please upload an image file.") (Some 400))
              else if too_large (File.size file) then
                next (ErrorResponse
                        (MStr ("Please upload an image less than "
                               ++ MAX_FILE_UPLOAD_text sys)) (Some 400))
              else
                let file := File.set_name file
                              ("photo_" ++ Bootcamp._id bootcamp
                               ++ ext sys (File.name file)) in
                let path := FILE_UPLOAD_PATH sys ++ "/" ++ File.name file in
                match mv sys file path with
                | Some err =>
                    next (ErrorResponse (MStr "Problem with file upload") (Some 500))
                | None =>
                    _ <- modify (fun w => write_file w path file) ;;
                    _ <- Bootcamp_findByIdAndUpdate false (params_id req)
                           [("photo", File.name file)] ;;
                    respond 200 (JObj [("sucess", JBool true);
                                       ("data", JStr (File.name file))])
                end
          end
      end
  end.

End Controllers.

(** ** Routes by identifier *)

(** The handlers mounted on a path with an [:id] segment. *)
Definition by_id_endpoints (sys : Collaborators) : list Controller :=
  [getBootcampById sys; updateBootcamp sys; deleteBootcamp sys; bootcampPhotoUpload sys;
   getCourse sys; updateCourse sys; deleteCourse sys].

(** The number of bootcamps a user owns. *)
Definition owned (uid : string) (store : list Bootcamp.doc) : nat :=
  length (filter (Bootcamp.owned_by uid) store).

(** ** A concrete system, used to run the handlers *)

Module Sample.

Definition hex_digit (c : ascii) : bool :=
  let n := nat_of_ascii c in
  ((48 <=? n) && (n <=? 57) || (97 <=? n) && (n <=? 102))%nat.

(** Twenty-four hexadecimal digits. *)
Definition objectId (s : string) : bool :=
  (String.length s =? 24)%nat && forallb hex_digit (list_ascii_of_string s).

Definition duplicateKey : Err.t :=
  Err.mk (Some "MongoError") (Some 11000)
         (Some "E11000 duplicate key error collection: devcamper.bootcamps") None None.

(** A required [name] and a unique index on it. *)
Definition bootcampFault (b : Body) (store : list Bootcamp.doc) : option Err.t :=
  match lookup "name" b with
  | None =>
      Some (Err.mk (Some "ValidationError") None
                   (Some "Bootcamp validation failed") None
                   (Some [("name", "Please add a name")]))
  | Some n =>
      if existsb (fun d => String.eqb (Bootcamp.name d) n) store
      then Some duplicateKey
      else None
  end.

Definition courseFault (b : Body) (store : list Course.doc) : option Err.t :=
  match lookup "title" b with
  | None =>
      Some (Err.mk (Some "ValidationError") None
                   (Some "Course validation failed") None
                   (Some [("title", "Please add a course title")]))
  | Some _ => None
  end.

Definition populate (c : Course.doc) (bs : list Bootcamp.doc) : option Json :=
  Some (JObj [("_id", JStr (Course._id c));
              ("bootcamp",
               nullable (fun b => JObj [("_id", JStr (Bootcamp._id b));
                                        ("name", JStr (Bootcamp.name b));
                                        ("description", JStr (Bootcamp.description b))])
                        (find (Bootcamp.has_id (Course.bootcamp c)) bs));
              ("title", JStr (Course.title c))]).

(** Numbers as fractions of integers. *)
Definition fraction : Type := (Z * Z)%type.

Definition toNumber (s : string) : fraction :=
  match DecimalString.NilEmpty.uint_of_string s with
  | Some d => (Z.of_uint d, 1)
  | None => (0, 0)
  end.

Definition div (a b : fraction) : fraction := (fst a * snd b, snd a * fst b).

Definition geocode (zipcode : string) : Completion (list (Place fraction)) :=
  if String.eqb zipcode "90210"
  then Return [mkPlace (340901, 10000) (-1184065, 10000)]
  else Return [].

Definition ext (file : string) : string :=
  match index 0%nat "." file with
  | Some i => substring i (String.length file - i)%nat file
  | None => ""
  end.

Definition sys : Collaborators :=
  mkCollaborators
    objectId bootcampFault courseFault
    (fun _ => "5d713995b721c3bb38c1f5d9") (fun _ => "5d725a4a7b292f5f8ceff799")
    populate
    fraction toNumber (fun z => (z, 1)) div geocode
    (fun _ _ _ _ => true)
    ext (fun _ _ => None)
    (Some 1000000) "1000000" "./public/uploads".

Definition publisher : User := mkUser "5c8a1d5b0190b214360dc031" "publisher".
Definition stranger : User := mkUser "5c8a1d5b0190b214360dc032" "publisher".
Definition newcomer : User := mkUser "5c8a1d5b0190b214360dc033" "publisher".

Definition devworks : Bootcamp.doc :=
  Bootcamp.mk "5d713995b721c3bb38c1f5d0" (id publisher)
              "Devworks Bootcamp" "Full stack web development" "no-photo.jpg".

Definition frontend : Course.doc :=
  Course.mk "5d725a4a7b292f5f8ceff789" (Bootcamp._id devworks) "Front End Web Development".

Definition world : World := mkWorld [devworks] [frontend] [].

(** A well-formed identifier that no document has. *)
Definition unknownId : string := "5d713995b721c3bb38c1f5ff".

Definition request (pid : string) (u : User) : Request :=
  mkRequest pid None "" "" u [] None JNull.

Definition with_body (r : Request) (b : Body) : Request :=
  mkRequest (params_id r) (params_bootcampId r) (params_zipcode r) (params_distance r)
            (user r) b (files r) (advancedResults r).

Definition with_bootcampId (r : Request) (b : string) : Request :=
  mkRequest (params_id r) (Some b) (params_zipcode r) (params_distance r)
            (user r) (body r) (files r) (advancedResults r).

Definition with_file (r : Request) (f : File.t) : Request :=
  mkRequest (params_id r) (params_bootcampId r) (params_zipcode r) (params_distance r)
            (user r) (body r) (Some [("file", f)]) (advancedResults r).

Definition radius_request : Request :=
  mkRequest "" None "90210" "10" publisher [] None JNull.

End Sample.

(** ** Handlers by kind *)

(** The handlers behind GET routes. *)
Definition read_handlers (sys : Collaborators) : list Controller :=
  [getBootcamps; getBootcampById sys; getBootcampsInRadius sys; getCourses sys;
   getCourse sys].

(** The handlers behind POST, PUT and DELETE routes. *)
Definition write_handlers (sys : Collaborators) : list Controller :=
  [createBootcamp sys; updateBootcamp sys; deleteBootcamp sys; bootcampPhotoUpload sys;
   addCourse sys; updateCourse sys; deleteCourse sys].

(** The same request from another principal. *)
Definition with_user (r : Request) (u : User) : Request :=
  mkRequest (params_id r) (params_bootcampId r) (params_zipcode r) (params_distance r)
            u (body r) (files r) (advancedResults r).

(** ** More concrete systems *)

Module Fixture.

Definition admin : User := mkUser "5c8a1d5b0190b214360dc040" "admin".

Definition diskFull : Err.t :=
  Err.mk (Some "Error") None (Some "ENOSPC: no space left on device") None None.

(** [Sample.sys] with a file move that fails. *)
Definition failing_move : Collaborators :=
  mkCollaborators
    Sample.objectId Sample.bootcampFault Sample.courseFault
    (fun _ => "5d713995b721c3bb38c1f5d9") (fun _ => "5d725a4a7b292f5f8ceff799")
    Sample.populate
    Sample.fraction Sample.toNumber (fun z => (z, 1)) Sample.div Sample.geocode
    (fun _ _ _ _ => true)
    Sample.ext (fun _ _ => Some diskFull)
    (Some 1000000) "1000000" "./public/uploads".

(** [Sample.sys] without [MAX_FILE_UPLOAD] in the environment. *)
Definition no_limit : Collaborators :=
  mkCollaborators
    Sample.objectId Sample.bootcampFault Sample.courseFault
    (fun _ => "5d713995b721c3bb38c1f5d9") (fun _ => "5d725a4a7b292f5f8ceff799")
    Sample.populate
    Sample.fraction Sample.toNumber (fun z => (z, 1)) Sample.div Sample.geocode
    (fun _ _ _ _ => true)
    Sample.ext (fun _ _ => None)
    None "undefined" "./public/uploads".

Definition backend : Course.doc :=
  Course.mk "5d725a4a7b292f5f8ceff790" "5d713995b721c3bb38c1f5d1" "Back End Web Development".

Definition two_courses : World :=
  mkWorld [Sample.devworks] [Sample.frontend; backend] [].

Definition png : File.t := File.mk "me.png" "image/png" 100.



End Fixture.

(** * Properties *)

(** ** Strict equality and defaults *)

Lemma strict_eq_str_true (v : option string) (s : string) :
  strict_eq_str v s = true <-> v = Some s.
Proof.
  destruct v as [x|]; simpl.
  - rewrite String.eqb_eq. split; congruence.
  - split; discriminate.
Qed.

Lemma strict_eq_str_false (v : option string) (s : string) :
  strict_eq_str v s = false <-> v <> Some s.
Proof.
  rewrite <- strict_eq_str_true. destruct (strict_eq_str v s); split; congruence.
Qed.

Lemma strict_eq_num_true (v : option Z) (n : Z) :
  strict_eq_num v n = true <-> v = Some n.
Proof.
  destruct v as [x|]; simpl.
  - rewrite Z.eqb_eq. split; congruence.
  - split; discriminate.
Qed.

Lemma strict_eq_num_false (v : option Z) (n : Z) :
  strict_eq_num v n = false <-> v <> Some n.
Proof.
  rewrite <- strict_eq_num_true. destruct (strict_eq_num v n); split; congruence.
Qed.

Lemma or_str_nonempty (s d : string) : s <> "" -> or_str (Some s) d = s.
Proof.
  intros Hs. unfold or_str. destruct (String.eqb_spec s ""); congruence.
Qed.

Lemma or_num_nonzero (n d : Z) : n <> 0 -> or_num (Some n) d = n.
Proof.
  intros Hn. unfold or_num. destruct (Z.eqb_spec n 0); congruence.
Qed.

(** ** The error handler *)

(** An Error Value built by a controller passes through unchanged. *)
Lemma normalize_ErrorResponse (m : MsgArg) (c : option Z) :
  normalize (ErrorResponse m c) = Return (ErrorResponse m c).
Proof. reflexivity. Qed.

Lemma errorHandler_ErrorResponse (m : string) (c : Z) :
  m <> "" -> c <> 0 ->
  errorHandler (ErrorResponse (MStr m) (Some c)) = Return (mkResponse c (failure m)).
Proof.
  intros Hm Hc. unfold errorHandler. rewrite normalize_ErrorResponse.
  unfold ErrorResponse, failure. cbn [Err.message Err.statusCode toString].
  rewrite or_str_nonempty, or_num_nonzero by assumption. reflexivity.
Qed.

(** Without a status code the response is a 500. *)
Lemma errorHandler_no_status (m : string) :
  m <> "" ->
  errorHandler (ErrorResponse (MStr m) None) = Return (mkResponse 500 (failure m)).
Proof.
  intros Hm. unfold errorHandler. rewrite normalize_ErrorResponse.
  unfold ErrorResponse, failure. cbn [Err.message Err.statusCode toString].
  rewrite or_str_nonempty by assumption. reflexivity.
Qed.

(** Whatever the error, a response the handler writes is a Failure Envelope. *)
Lemma errorHandler_failure_envelope (err : Err.t) (r : Response) :
  errorHandler err = Return r -> failure_envelope (json r) = true.
Proof.
  unfold errorHandler. destruct (normalize err) as [error|e]; [|discriminate].
  intros [= <-]. reflexivity.
Qed.

(** The handler throws only on a validation error without [errors]. *)
Lemma errorHandler_throws (err : Err.t) (e : Err.t) :
  errorHandler err = Throw e ->
  Err.name err = Some "ValidationError" /\ Err.errors err = None.
Proof.
  unfold errorHandler, normalize.
  destruct (strict_eq_str (Err.name err) "ValidationError") eqn:Hv.
  - apply strict_eq_str_true in Hv. destruct (Err.errors err); [discriminate|]. auto.
  - discriminate.
Qed.

(** Every [CastError] is answered with status 404. *)
Lemma cast_error_status (err : Err.t) :
  Err.name err = Some "CastError" ->
  exists msg, errorHandler err = Return (mkResponse 404 (failure msg)).
Proof.
  intros Hn. unfold errorHandler, normalize. rewrite Hn. simpl.
  destruct (strict_eq_num (Err.code err) 11000); eexists; reflexivity.
Qed.

(** ** Handlers and the error handler *)

Lemma serve_throw (fn : Controller) (req : Request) (w w' : World) (e : Err.t) :
  fn req w = (w', Throw e) -> serve fn req w = (w', errorHandler e).
Proof. intros H. unfold serve, asyncHandler. rewrite H. reflexivity. Qed.

Lemma serve_next (fn : Controller) (req : Request) (w w' : World) (e : Err.t) :
  fn req w = (w', Return (Next e)) -> serve fn req w = (w', errorHandler e).
Proof. intros H. unfold serve, asyncHandler. rewrite H. reflexivity. Qed.

Lemma serve_respond (fn : Controller) (req : Request) (w w' : World) (r : Response) :
  fn req w = (w', Return (Respond r)) -> serve fn req w = (w', Return r).
Proof. intros H. unfold serve, asyncHandler. rewrite H. reflexivity. Qed.

(** A by-id handler given an identifier that does not cast throws the
    storage layer's [CastError] before anything else happens. *)
Lemma by_id_cast_error (sys : Collaborators) (fn : Controller) (req : Request) (w : World) :
  In fn (by_id_endpoints sys) ->
  isObjectId sys (params_id req) = false ->
  fn req w = (w, Throw (CastError (params_id req))).
Proof.
  intros Hin Hid. unfold by_id_endpoints in Hin. simpl in Hin.
  repeat (destruct Hin as [<-|Hin];
          [ unfold getBootcampById, updateBootcamp, deleteBootcamp, bootcampPhotoUpload,
              getCourse, updateCourse, deleteCourse, bind,
              Bootcamp_findById, Course_findById, await,
              Bootcamp.findById, Course.findById;
            rewrite Hid; reflexivity | ]).
  contradiction.
Qed.

(** ** Malformed identifiers *)

(** C8.  An error whose name is [CastError] (and which does not also carry
    the duplicate-key code, tested by the next [if]) becomes the Error
    Value "Resource not found" with status 404, and the response is the
    Failure Envelope with that message and status 404; so every by-id
    endpoint, given an identifier that does not cast, answers 404 with a
    Failure Envelope and leaves the world as it was. *)
Theorem malformed_identifier_is_404 (sys : Collaborators) (err : Err.t) :
  Err.name err = Some "CastError" ->
  Err.code err <> Some 11000 ->
  normalize err = Return (ErrorResponse (MStr "Resource not found") (Some 404))
  /\ errorHandler err = Return (mkResponse 404 (failure "Resource not found"))
  /\ (forall fn req w,
         In fn (by_id_endpoints sys) ->
         isObjectId sys (params_id req) = false ->
         serve fn req w = (w, Return (mkResponse 404 (failure "Resource not found")))).
Proof.
  intros Hname Hcode.
  assert (Hn : normalize err
               = Return (ErrorResponse (MStr "Resource not found") (Some 404))).
  { unfold normalize. rewrite Hname.
    apply strict_eq_num_false in Hcode. rewrite Hcode. reflexivity. }
  split; [exact Hn|]. split.
  - unfold errorHandler. rewrite Hn. reflexivity.
  - intros fn req w Hin Hid.
    rewrite (serve_throw fn req w w (CastError (params_id req))).
    + reflexivity.
    + now apply by_id_cast_error with (sys := sys).
Qed.

Lemma malformed_identifier_is_404_witness :
  errorHandler (CastError "17")
  = Return (mkResponse 404 (failure "Resource not found"))
  /\ serve (getCourse Sample.sys) (Sample.request "17" Sample.publisher) Sample.world
     = (Sample.world, Return (mkResponse 404 (failure "Resource not found"))).
Proof.
  destruct (malformed_identifier_is_404 Sample.sys (CastError "17") eq_refl
              ltac:(discriminate)) as (_ & Hresp & Hroutes).
  split; [exact Hresp|].
  apply Hroutes; [simpl; auto 10 | reflexivity].
Defined.

(** ** Duplicate keys *)

(** A handler that reaches [Bootcamp.create] throws what the storage layer
    rejects the document with, and stores nothing. *)
Lemma createBootcamp_fault (sys : Collaborators) (req : Request) (w : World) (e : Err.t) :
  isObjectId sys (id (user req)) = true ->
  is_some (find (Bootcamp.owned_by (id (user req))) (bootcamps w))
  && negb (String.eqb (role (user req)) "admin") = false ->
  bootcampFault sys (set_field "user" (id (user req)) (body req)) (bootcamps w) = Some e ->
  createBootcamp sys req w = (w, Throw e).
Proof.
  intros Hid Hgate Hfault.
  unfold createBootcamp, bind, Bootcamp_findOne, await, Bootcamp.findOne.
  rewrite Hid, Hgate.
  unfold Bootcamp_create, await_write, Bootcamp.create. rewrite Hfault. reflexivity.
Qed.

(** C2, as the code has it: the duplicate-key error is answered with
    status 404, which the claim gives as 409. *)
Lemma duplicate_key_status_is_not_409 :
  strict_eq_num (Err.code Sample.duplicateKey) 11000 = true
  /\ normalize Sample.duplicateKey
     = Return (ErrorResponse (MStr "Duplicate field value entered") (Some 404))
  /\ ~ (exists j, errorHandler Sample.duplicateKey = Return (mkResponse 409 j)).
Proof.
  split; [reflexivity|]. split; [reflexivity|].
  intros [j Hj]. vm_compute in Hj. discriminate.
Qed.

(** C2, amended.  An error whose code is 11000 (and whose name is not
    [ValidationError], tested by the next [if]) becomes the Error Value
    "Duplicate field value entered" with status 404; the response is the
    Failure Envelope with that message and a status in the 4xx range; and a
    bootcamp creation that the storage layer rejects with such an error is
    answered that way, with nothing stored. *)
Theorem duplicate_key_is_404 (err : Err.t) :
  Err.code err = Some 11000 ->
  Err.name err <> Some "ValidationError" ->
  normalize err = Return (ErrorResponse (MStr "Duplicate field value entered") (Some 404))
  /\ (exists r, errorHandler err = Return r
                /\ r = mkResponse 404 (failure "Duplicate field value entered")
                /\ 400 <= status r < 500
                /\ failure_envelope (json r) = true)
  /\ (forall sys req w,
         isObjectId sys (id (user req)) = true ->
         is_some (find (Bootcamp.owned_by (id (user req))) (bootcamps w))
         && negb (String.eqb (role (user req)) "admin") = false ->
         bootcampFault sys (set_field "user" (id (user req)) (body req)) (bootcamps w)
         = Some err ->
         serve (createBootcamp sys) req w
         = (w, Return (mkResponse 404 (failure "Duplicate field value entered")))).
Proof.
  intros Hcode Hname.
  assert (Hn : normalize err
               = Return (ErrorResponse (MStr "Duplicate field value entered") (Some 404))).
  { unfold normalize. rewrite Hcode.
    apply strict_eq_str_false in Hname. rewrite Hname. reflexivity. }
  assert (Hr : errorHandler err
               = Return (mkResponse 404 (failure "Duplicate field value entered"))).
  { unfold errorHandler. rewrite Hn. reflexivity. }
  split; [exact Hn|]. split.
  - eexists. split; [exact Hr|]. split; [reflexivity|]. split; [simpl; lia|reflexivity].
  - intros sys req w Hid Hgate Hfault.
    rewrite (serve_throw _ req w w err); [now rewrite Hr|].
    now apply createBootcamp_fault.
Qed.

Lemma duplicate_key_is_404_witness :
  errorHandler Sample.duplicateKey
  = Return (mkResponse 404 (failure "Duplicate field value entered"))
  /\ serve (createBootcamp Sample.sys)
           (Sample.with_body (Sample.request "" Sample.newcomer)
                             [("name", "Devworks Bootcamp")])
           Sample.world
     = (Sample.world, Return (mkResponse 404 (failure "Duplicate field value entered"))).
Proof.
  destruct (duplicate_key_is_404 Sample.duplicateKey eq_refl ltac:(discriminate))
    as (_ & (r & Hr & -> & _) & Hcreate).
  split; [exact Hr|].
  apply Hcreate; reflexivity.
Defined.

(** ** Validation errors *)

(** What the handler answers to any validation error that has its
    [errors]: the messages joined by commas, or the default text when
    that string is empty. *)
Lemma validation_error_response (err : Err.t) (errs : list (string * string)) :
  Err.name err = Some "ValidationError" ->
  Err.errors err = Some errs ->
  errorHandler err
  = Return (mkResponse 400
              (failure (or_str (Some (String.concat "," (map snd errs))) "Server Error"))).
Proof.
  intros Hname Herrs. unfold errorHandler, normalize. rewrite Hname, Herrs. reflexivity.
Qed.

(** C5.  An error whose name is [ValidationError] becomes an Error Value
    whose message is one string, the field-level messages of [errors] in
    order joined by commas, with status 400; when the fault carries any
    message text at all, the response is the Failure Envelope with that
    string and status 400. *)
Theorem validation_messages_joined (err : Err.t) (errs : list (string * string)) :
  Err.name err = Some "ValidationError" ->
  Err.errors err = Some errs ->
  String.concat "," (map snd errs) <> "" ->
  exists ev,
    normalize err = Return ev
    /\ Err.message ev = Some (String.concat "," (map snd errs))
    /\ Err.statusCode ev = Some 400
    /\ errorHandler err
       = Return (mkResponse 400 (failure (String.concat "," (map snd errs)))).
Proof.
  intros Hname Herrs Htext.
  exists (ErrorResponse (MArr (map snd errs)) (Some 400)).
  split; [|split; [reflexivity|split; [reflexivity|]]].
  - unfold normalize. rewrite Hname, Herrs. reflexivity.
  - rewrite (validation_error_response err errs Hname Herrs).
    now rewrite or_str_nonempty.
Qed.

Lemma validation_messages_joined_witness :
  errorHandler (Err.mk (Some "ValidationError") None (Some "Bootcamp validation failed") None
                       (Some [("name", "Please add a name");
                              ("description", "Please add a description")]))
  = Return (mkResponse 400 (failure "Please add a name,Please add a description")).
Proof.
  destruct (validation_messages_joined
              (Err.mk (Some "ValidationError") None (Some "Bootcamp validation failed") None
                      (Some [("name", "Please add a name");
                             ("description", "Please add a description")]))
              [("name", "Please add a name"); ("description", "Please add a description")]
              eq_refl eq_refl ltac:(discriminate)) as (ev & _ & _ & _ & H).
  exact H.
Defined.

(** ** Unknown identifiers *)

Ltac unfold_handler :=
  unfold serve, asyncHandler,
    getBootcampById, updateBootcamp, deleteBootcamp, bootcampPhotoUpload, createBootcamp,
    getBootcampsInRadius, getCourses, getCourse, addCourse, updateCourse, deleteCourse;
  unfold Bootcamp_findById, Bootcamp_findOne, Bootcamp_create, Bootcamp_findByIdAndUpdate,
    Bootcamp_remove, Course_findById, Course_find, Course_create,
    Course_findByIdAndUpdate, Course_remove;
  unfold bind, next, respond, ret, throw, call, modify, await, await_write,
    Bootcamp.findById, Bootcamp.findOne, Course.findById;
  cbv beta.

(** The three by-id handlers of bootcamps answer 404 when the identifier
    is well formed and no bootcamp has it. *)
Lemma bootcamp_not_found (sys : Collaborators) (fn : Controller) (req : Request) (w : World) :
  In fn [getBootcampById sys; updateBootcamp sys; deleteBootcamp sys] ->
  isObjectId sys (params_id req) = true ->
  find (Bootcamp.has_id (params_id req)) (bootcamps w) = None ->
  serve fn req w
  = (w, Return (mkResponse 404
                  (failure ("Bootcamp not found with the id of " ++ params_id req)))).
Proof.
  intros Hin Hid Hfind. simpl in Hin.
  destruct Hin as [<-|[<-|[<-|[]]]]; unfold_handler; rewrite Hid, Hfind; reflexivity.
Qed.

(** The handlers of courses call [next(new errorResponse(msg), 404)]: the
    404 is the second argument of [next], the Error Value has no
    status code, and the answer is a 500. *)
Lemma course_not_found (sys : Collaborators) (req : Request) (w : World) :
  isObjectId sys (params_id req) = true ->
  find (Course.has_id (params_id req)) (courses w) = None ->
  serve (updateCourse sys) req w
  = (w, Return (mkResponse 500 (failure ("No course with the id: " ++ params_id req))))
  /\ serve (deleteCourse sys) req w
     = (w, Return (mkResponse 500
                     (failure ("Course not found with the id: " ++ params_id req))))
  /\ serve (getCourse sys) req w
     = (w, Return (mkResponse 500 (failure "Cannot read property 'populate' of null"))).
Proof.
  intros Hid Hfind.
  repeat split; unfold_handler; rewrite Hid, Hfind; reflexivity.
Qed.

(** C3, on the code.  A request for a course by a well-formed identifier
    that no course has is answered with status 500, by [getCourse],
    [updateCourse] and [deleteCourse] alike, where the claim has 404. *)
Theorem missing_course_is_500 :
  find (Course.has_id Sample.unknownId) (courses Sample.world) = None
  /\ isObjectId Sample.sys Sample.unknownId = true
  /\ serve (getCourse Sample.sys) (Sample.request Sample.unknownId Sample.publisher)
           Sample.world
     = (Sample.world,
        Return (mkResponse 500 (failure "Cannot read property 'populate' of null")))
  /\ serve (updateCourse Sample.sys) (Sample.request Sample.unknownId Sample.publisher)
           Sample.world
     = (Sample.world,
        Return (mkResponse 500
                  (failure "No course with the id: 5d713995b721c3bb38c1f5ff")))
  /\ serve (deleteCourse Sample.sys) (Sample.request Sample.unknownId Sample.publisher)
           Sample.world
     = (Sample.world,
        Return (mkResponse 500
                  (failure "Course not found with the id: 5d713995b721c3bb38c1f5ff"))).
Proof. repeat split; reflexivity. Qed.

(** ** Ownership *)

(** [updateBootcamp] refuses a principal that is neither the owner nor an
    admin, and the world stays as it was. *)
Lemma updateBootcamp_unauthorized (sys : Collaborators) (req : Request) (w : World)
      (b : Bootcamp.doc) :
  isObjectId sys (params_id req) = true ->
  find (Bootcamp.has_id (params_id req)) (bootcamps w) = Some b ->
  Bootcamp.user b <> id (user req) ->
  role (user req) <> "admin" ->
  serve (updateBootcamp sys) req w
  = (w, Return (mkResponse 401
                  (failure ("User " ++ params_id req
                            ++ " is not authorized to update this bootcamp")))).
Proof.
  intros Hid Hfind Howner Hrole. unfold_handler. rewrite Hid, Hfind.
  apply String.eqb_neq in Howner, Hrole. rewrite Howner, Hrole. reflexivity.
Qed.

Example stranger_cannot_update :
  serve (updateBootcamp Sample.sys)
        (Sample.with_body (Sample.request (Bootcamp._id Sample.devworks) Sample.stranger)
                          [("name", "Mine now")])
        Sample.world
  = (Sample.world,
     Return (mkResponse 401
               (failure "User 5d713995b721c3bb38c1f5d0 is not authorized to update this bootcamp"))).
Proof.
  exact (updateBootcamp_unauthorized Sample.sys
           (Sample.with_body (Sample.request (Bootcamp._id Sample.devworks) Sample.stranger)
                             [("name", "Mine now")])
           Sample.world Sample.devworks eq_refl eq_refl
           ltac:(discriminate) ltac:(discriminate)).
Qed.

(** The owner and the admin reach the storage mutation. *)
Lemma updateBootcamp_authorized (sys : Collaborators) (req : Request) (w : World)
      (b : Bootcamp.doc) :
  isObjectId sys (params_id req) = true ->
  find (Bootcamp.has_id (params_id req)) (bootcamps w) = Some b ->
  Bootcamp.user b = id (user req) \/ role (user req) = "admin" ->
  bootcampFault sys (body req) (bootcamps w) = None ->
  serve (updateBootcamp sys) req w
  = (set_bootcamps w (Bootcamp.update (params_id req) (body req) (bootcamps w)),
     Return (mkResponse 200
               (JObj [("success", JBool true);
                      ("data", nullable Bootcamp.toJSON
                                 (find (Bootcamp.has_id (params_id req))
                                       (Bootcamp.update (params_id req) (body req)
                                                        (bootcamps w))))]))).
Proof.
  intros Hid Hfind Hauth Hfault. unfold_handler. rewrite Hid, Hfind.
  assert (Hgate : negb (String.eqb (Bootcamp.user b) (id (user req)))
                  && negb (String.eqb (role (user req)) "admin") = false).
  { destruct Hauth as [H|H]; rewrite H, String.eqb_refl; simpl;
      auto using andb_false_r. }
  rewrite Hgate. unfold Bootcamp.findByIdAndUpdate. rewrite Hid, Hfault. reflexivity.
Qed.

(** [deleteBootcamp] never looks at the identity of the principal: every
    principal but an admin is refused, whoever owns the bootcamp, unless
    the owner recorded on it is the text ["req.user.id"]. *)
Lemma deleteBootcamp_refuses (sys : Collaborators) (req : Request) (w : World)
      (b : Bootcamp.doc) :
  isObjectId sys (params_id req) = true ->
  find (Bootcamp.has_id (params_id req)) (bootcamps w) = Some b ->
  Bootcamp.user b <> "req.user.id" ->
  role (user req) <> "admin" ->
  serve (deleteBootcamp sys) req w
  = (w, Return (mkResponse 401
                  (failure ("User " ++ params_id req
                            ++ " is not authorized to delete this bootcamp")))).
Proof.
  intros Hid Hfind Howner Hrole. unfold_handler. rewrite Hid, Hfind.
  apply String.eqb_neq in Howner, Hrole. rewrite Howner, Hrole. reflexivity.
Qed.

(** C1, on the code.  The owner of a bootcamp, a publisher, asks to delete
    it: the answer is 401 and the bootcamp is still there, where the claim
    lets the owner proceed.  The same principal may update it. *)
Theorem owner_cannot_delete :
  Bootcamp.user Sample.devworks = id Sample.publisher
  /\ find (Bootcamp.has_id (Bootcamp._id Sample.devworks)) (bootcamps Sample.world)
     = Some Sample.devworks
  /\ serve (deleteBootcamp Sample.sys)
           (Sample.request (Bootcamp._id Sample.devworks) Sample.publisher) Sample.world
     = (Sample.world,
        Return (mkResponse 401
                  (failure "User 5d713995b721c3bb38c1f5d0 is not authorized to delete this bootcamp")))
  /\ (exists w' j,
         serve (updateBootcamp Sample.sys)
               (Sample.with_body
                  (Sample.request (Bootcamp._id Sample.devworks) Sample.publisher)
                  [("name", "Devworks Academy")])
               Sample.world
         = (w', Return (mkResponse 200 j))
         /\ map Bootcamp.name (bootcamps w') = ["Devworks Academy"]).
Proof.
  repeat split; try reflexivity.
  do 2 eexists. split; reflexivity.
Qed.

(** ** Envelopes *)

(** A bootcamp fetched by its identifier is wrapped in a Success Envelope. *)
Lemma getBootcampById_envelope (sys : Collaborators) (req : Request) (w : World)
      (b : Bootcamp.doc) :
  isObjectId sys (params_id req) = true ->
  find (Bootcamp.has_id (params_id req)) (bootcamps w) = Some b ->
  serve (getBootcampById sys) req w
  = (w, Return (mkResponse 200 (JObj [("success", JBool true); ("data", Bootcamp.toJSON b)])))
  /\ success_envelope (JObj [("success", JBool true); ("data", Bootcamp.toJSON b)]) = true.
Proof.
  intros Hid Hfind. split; [|reflexivity].
  unfold_handler. rewrite Hid, Hfind. reflexivity.
Qed.

(** An object whose flag is spelt [sucess] has no [success] property and
    is neither envelope. *)
Lemma sucess_is_no_envelope (data : Json) :
  envelope (JObj [("sucess", JBool true); ("data", data)]) = false.
Proof. reflexivity. Qed.

(** C4, on the code.  A course fetched by its identifier is answered with
    the object {sucess: true, data: ..}, which is neither the Success
    Envelope nor the Failure Envelope. *)
Theorem getCourse_body_is_no_envelope :
  exists data,
    serve (getCourse Sample.sys)
          (Sample.request (Course._id Sample.frontend) Sample.publisher) Sample.world
    = (Sample.world,
       Return (mkResponse 200 (JObj [("sucess", JBool true); ("data", data)])))
    /\ lookup "success" [("sucess", JBool true); ("data", data)] = None
    /\ envelope (JObj [("sucess", JBool true); ("data", data)]) = false.
Proof. eexists. repeat split. Qed.

(** ** Creation *)

(** C6, on the code.  A course is created and stored, and the answer has
    status 200, where the claim has 201, around an object whose flag is
    spelt [sucess]; a bootcamp is created with status 201 around an object
    with the same misspelling. *)
Theorem addCourse_status_is_200 :
  (exists w' data,
      serve (addCourse Sample.sys)
            (Sample.with_body
               (Sample.with_bootcampId (Sample.request "" Sample.publisher)
                                       (Bootcamp._id Sample.devworks))
               [("title", "Node")])
            Sample.world
      = (w', Return (mkResponse 200 (JObj [("sucess", JBool true); ("data", data)])))
      /\ map Course.title (courses w') = ["Front End Web Development"; "Node"]
      /\ success_envelope (JObj [("sucess", JBool true); ("data", data)]) = false)
  /\ (exists w' data,
         serve (createBootcamp Sample.sys)
               (Sample.with_body (Sample.request "" Sample.newcomer)
                                 [("name", "ModernTech")])
               Sample.world
         = (w', Return (mkResponse 201 (JObj [("sucess", JBool true); ("data", data)])))
         /\ map Bootcamp.name (bootcamps w') = ["Devworks Bootcamp"; "ModernTech"]
         /\ success_envelope (JObj [("sucess", JBool true); ("data", data)]) = false).
Proof. split; do 2 eexists; repeat split. Qed.

(** ** Photo upload *)

(** C7, as the code has it: the first check, that the bootcamp exists,
    fails with status 404, which the claim gives as 400. *)
Lemma photo_upload_missing_bootcamp_is_404 :
  find (Bootcamp.has_id Sample.unknownId) (bootcamps Sample.world) = None
  /\ asyncHandler (bootcampPhotoUpload Sample.sys)
                  (Sample.with_file (Sample.request Sample.unknownId Sample.publisher)
                                    (File.mk "me.png" "image/png" 100))
                  Sample.world
     = (Sample.world,
        Next (ErrorResponse
                (MStr "Bootcamp not found with the id of 5d713995b721c3bb38c1f5ff")
                (Some 404)))
  /\ ~ (exists w' m,
           asyncHandler (bootcampPhotoUpload Sample.sys)
                        (Sample.with_file
                           (Sample.request Sample.unknownId Sample.publisher)
                           (File.mk "me.png" "image/png" 100))
                        Sample.world
           = (w', Next (ErrorResponse m (Some 400)))).
Proof.
  split; [reflexivity|]. split; [reflexivity|].
  intros (w' & m & H). vm_compute in H. discriminate.
Qed.

(** C7, amended.  For a well-formed identifier the upload handler checks,
    in this order, that the bootcamp exists (else an Error Value with
    status 404), that [req.files] is there (else 400, "Please upload a
    file"), that the media type of [req.files.file] starts with "image"
    (else 400, "Please upload an image file."), and that its size is not
    over the configured maximum (else 400); the first check that fails
    ends the request, whatever the later ones would say, and the world,
    with its upload directory, is as it was.  When all four pass and the
    move succeeds, the file is written. *)
Theorem photo_upload_checks (sys : Collaborators) (req : Request) (w : World) :
  isObjectId sys (params_id req) = true ->
  (find (Bootcamp.has_id (params_id req)) (bootcamps w) = None ->
   asyncHandler (bootcampPhotoUpload sys) req w
   = (w, Next (ErrorResponse
                 (MStr ("Bootcamp not found with the id of " ++ params_id req))
                 (Some 404))))
  /\ (forall b,
         find (Bootcamp.has_id (params_id req)) (bootcamps w) = Some b ->
         (files req = None ->
          asyncHandler (bootcampPhotoUpload sys) req w
          = (w, Next (ErrorResponse (MStr "Please upload a file") (Some 400))))
         /\ (forall fs f,
                files req = Some fs ->
                lookup "file" fs = Some f ->
                (String.prefix "image" (File.mimetype f) = false ->
                 asyncHandler (bootcampPhotoUpload sys) req w
                 = (w, Next (ErrorResponse (MStr "Please upload an image file.")
                                           (Some 400)))
                 /\ serve (bootcampPhotoUpload sys) req w
                    = (w, Return (mkResponse 400 (failure "Please upload an image file."))))
                /\ (String.prefix "image" (File.mimetype f) = true ->
                    too_large sys (File.size f) = true ->
                    asyncHandler (bootcampPhotoUpload sys) req w
                    = (w, Next (ErrorResponse
                                  (MStr ("Please upload an image less than "
                                         ++ MAX_FILE_UPLOAD_text sys))
                                  (Some 400))))
                /\ (String.prefix "image" (File.mimetype f) = true ->
                    too_large sys (File.size f) = false ->
                    forall f' path,
                      f' = File.set_name f ("photo_" ++ Bootcamp._id b
                                            ++ ext sys (File.name f)) ->
                      path = FILE_UPLOAD_PATH sys ++ "/" ++ File.name f' ->
                      mv sys f' path = None ->
                      disk (fst (asyncHandler (bootcampPhotoUpload sys) req w))
                      = (path, f') :: disk w))).
Proof.
  intros Hid. split.
  - intros Hfind. unfold_handler. rewrite Hid, Hfind. reflexivity.
  - intros b Hfind. split.
    + intros Hfiles. unfold_handler. rewrite Hid, Hfind, Hfiles. reflexivity.
    + intros fs f Hfiles Hfile. split; [|split].
      * intros Himg.
        split; unfold_handler; rewrite Hid, Hfind, Hfiles, Hfile, Himg; reflexivity.
      * intros Himg Hbig.
        unfold_handler. rewrite Hid, Hfind, Hfiles, Hfile, Himg, Hbig. reflexivity.
      * intros Himg Hbig f' path -> -> Hmv.
        unfold_handler. rewrite Hid, Hfind, Hfiles, Hfile, Himg, Hbig.
        cbn [negb]. cbv zeta. rewrite Hmv.
        unfold Bootcamp.findByIdAndUpdate. rewrite Hid. reflexivity.
Qed.

Lemma photo_upload_checks_witness :
  serve (bootcampPhotoUpload Sample.sys)
        (Sample.with_file (Sample.request (Bootcamp._id Sample.devworks) Sample.publisher)
                          (File.mk "cv.pdf" "application/pdf" 2000000))
        Sample.world
  = (Sample.world, Return (mkResponse 400 (failure "Please upload an image file.")))
  /\ disk (fst (asyncHandler (bootcampPhotoUpload Sample.sys)
                  (Sample.with_file
                     (Sample.request (Bootcamp._id Sample.devworks) Sample.publisher)
                     (File.mk "me.png" "image/png" 100))
                  Sample.world))
     = [("./public/uploads/photo_5d713995b721c3bb38c1f5d0.png",
         File.mk "photo_5d713995b721c3bb38c1f5d0.png" "image/png" 100)].
Proof.
  split.
  - destruct (photo_upload_checks Sample.sys
                (Sample.with_file
                   (Sample.request (Bootcamp._id Sample.devworks) Sample.publisher)
                   (File.mk "cv.pdf" "application/pdf" 2000000))
                Sample.world eq_refl) as [_ H].
    destruct (H Sample.devworks eq_refl) as [_ H'].
    destruct (H' _ _ eq_refl eq_refl) as [Hpdf _].
    exact (proj2 (Hpdf eq_refl)).
  - destruct (photo_upload_checks Sample.sys
                (Sample.with_file
                   (Sample.request (Bootcamp._id Sample.devworks) Sample.publisher)
                   (File.mk "me.png" "image/png" 100))
                Sample.world eq_refl) as [_ H].
    destruct (H Sample.devworks eq_refl) as [_ H'].
    destruct (H' _ _ eq_refl eq_refl) as (_ & _ & Hpng).
    exact (Hpng eq_refl eq_refl _ _ eq_refl eq_refl eq_refl).
Defined.

(** ** Bootcamps within a radius *)

(** C9.  When the geocoder resolves the postal code to a place, the
    handler divides the given distance by the Earth-radius constant 6963,
    asks the storage layer for the bootcamps inside the sphere cap centred
    on the place's longitude and latitude with that radius, and answers
    200 with a Success Envelope whose count is the length of the list it
    returns; the world is as it was. *)
Theorem radius_search (sys : Collaborators) (req : Request) (w : World)
        (place : Place (num sys)) (others : list (Place (num sys))) :
  geocode sys (params_zipcode req) = Return (place :: others) ->
  exists (radius : num sys) (found : list Bootcamp.doc) (data : list Json),
    radius = div sys (toNumber sys (params_distance req)) (ofZ sys 6963)
    /\ found = filter (centerSphere sys (longitude place) (latitude place) radius)
                      (bootcamps w)
    /\ data = map Bootcamp.toJSON found
    /\ serve (getBootcampsInRadius sys) req w
       = (w, Return (mkResponse 200
                       (JObj [("success", JBool true);
                              ("count", JNum (Z.of_nat (length data)));
                              ("data", JArr data)])))
    /\ success_envelope (JObj [("success", JBool true);
                               ("count", JNum (Z.of_nat (length data)));
                               ("data", JArr data)]) = true.
Proof.
  intros Hgeo. do 3 eexists.
  split; [reflexivity|]. split; [reflexivity|]. split; [reflexivity|].
  split; [|reflexivity].
  unfold_handler. rewrite Hgeo. unfold count. rewrite length_map. reflexivity.
Qed.

Lemma radius_search_witness :
  exists data,
    serve (getBootcampsInRadius Sample.sys) Sample.radius_request Sample.world
    = (Sample.world,
       Return (mkResponse 200 (JObj [("success", JBool true);
                                     ("count", JNum (Z.of_nat (length data)));
                                     ("data", JArr data)]))).
Proof.
  destruct (radius_search Sample.sys Sample.radius_request Sample.world
              (mkPlace (340901, 10000) (-1184065, 10000)) [] eq_refl)
    as (radius & found & data & _ & _ & _ & H & _).
  exists data. exact H.
Defined.

(** ** One bootcamp for each publisher *)

Lemma lookup_set_field (k v : string) (b : Body) : lookup k (set_field k v b) = Some v.
Proof.
  induction b as [|[k' v'] rest IH]; simpl.
  - now rewrite String.eqb_refl.
  - destruct (String.eqb k k') eqn:E; simpl.
    + now rewrite String.eqb_refl.
    + now rewrite E.
Qed.



Lemma owned_snoc (uid : string) (store : list Bootcamp.doc) (d : Bootcamp.doc) :
  owned uid (store ++ [d])
  = (owned uid store + (if Bootcamp.owned_by uid d then 1 else 0))%nat.
Proof.
  unfold owned. rewrite filter_app, length_app. simpl.
  destruct (Bootcamp.owned_by uid d); reflexivity.
Qed.

(** The document that [createBootcamp] stores belongs to the principal. *)
Lemma created_is_owned (uid : string) (b : Body) (d : Bootcamp.doc) :
  Bootcamp.owned_by uid (Bootcamp.assign (set_field "user" uid b) d) = true.
Proof.
  unfold Bootcamp.owned_by, Bootcamp.assign, field_or. simpl.
  rewrite lookup_set_field. apply String.eqb_refl.
Qed.






(** * Further properties *)

(** ** The error handler on every error *)

(** The handler throws on exactly one kind of error, one named
    [ValidationError] that has no [errors]; every other error is answered
    with a Failure Envelope. *)
Theorem errorHandler_answers (err : Err.t) :
  match errorHandler err with
  | Return r =>
      failure_envelope (json r) = true
      /\ ~ (Err.name err = Some "ValidationError" /\ Err.errors err = None)
  | Throw _ => Err.name err = Some "ValidationError" /\ Err.errors err = None
  end.
Proof.
  unfold errorHandler, normalize.
  destruct (strict_eq_str (Err.name err) "ValidationError") eqn:Hv.
  - apply strict_eq_str_true in Hv.
    destruct (Err.errors err) eqn:He.
    + split; [reflexivity|]. intros [_ H]. discriminate.
    + auto.
  - apply strict_eq_str_false in Hv. split; [reflexivity|]. intros [H _]. contradiction.
Qed.

(** An error with none of the three marks keeps its own status code and
    message: the status is 500 when it has none (or zero), and the text is
    "Server Error" when it has none (or the empty one).  So the message of
    an exception raised anywhere in a handler is sent to the client. *)
Theorem unmarked_error_passes (err : Err.t) :
  Err.name err <> Some "CastError" ->
  Err.name err <> Some "ValidationError" ->
  Err.code err <> Some 11000 ->
  exists s msg,
    errorHandler err = Return (mkResponse s (failure msg))
    /\ (Err.statusCode err = None \/ Err.statusCode err = Some 0 -> s = 500)
    /\ (forall c, Err.statusCode err = Some c -> c <> 0 -> s = c)
    /\ (Err.message err = None \/ Err.message err = Some "" -> msg = "Server Error")
    /\ (forall m, Err.message err = Some m -> m <> "" -> msg = m).
Proof.
  intros Hcast Hval Hdup.
  apply strict_eq_str_false in Hcast, Hval. apply strict_eq_num_false in Hdup.
  exists (or_num (Err.statusCode err) 500), (or_str (Err.message err) "Server Error").
  split.
  - unfold errorHandler, normalize. rewrite Hcast, Hval, Hdup. reflexivity.
  - repeat split.
    + intros [H|H]; rewrite H; reflexivity.
    + intros c H Hc. rewrite H. now apply or_num_nonzero.
    + intros [H|H]; rewrite H; reflexivity.
    + intros m H Hm. rewrite H. now apply or_str_nonempty.
Qed.

Lemma unmarked_error_passes_witness :
  errorHandler (TypeError "Cannot read property 'populate' of null")
  = Return (mkResponse 500 (failure "Cannot read property 'populate' of null")).
Proof.
  destruct (unmarked_error_passes (TypeError "Cannot read property 'populate' of null")
              ltac:(discriminate) ltac:(discriminate) ltac:(discriminate))
    as (s & msg & Hr & Hnone & _ & _ & Hmsg).
  rewrite Hr, (Hnone (or_introl eq_refl)), (Hmsg _ eq_refl ltac:(discriminate)).
  reflexivity.
Defined.

(** The three tests run one after the other and the last one that holds
    decides: a [CastError] that also has the code 11000 is answered as a
    duplicate key, and a [ValidationError] is answered with its messages
    and status 400 whatever its code. *)
Theorem later_mark_wins (err : Err.t) :
  (Err.name err = Some "CastError" ->
   Err.code err = Some 11000 ->
   errorHandler err = Return (mkResponse 404 (failure "Duplicate field value entered")))
  /\ (forall errs,
         Err.name err = Some "ValidationError" ->
         Err.errors err = Some errs ->
         String.concat "," (map snd errs) <> "" ->
         errorHandler err
         = Return (mkResponse 400 (failure (String.concat "," (map snd errs))))).
Proof.
  split.
  - intros Hn Hc. unfold errorHandler, normalize. rewrite Hn, Hc. reflexivity.
  - intros errs Hn He Htext. rewrite (validation_error_response err errs Hn He).
    now rewrite or_str_nonempty.
Qed.

Lemma later_mark_wins_witness :
  errorHandler (Err.mk (Some "CastError") (Some 11000) None None None)
  = Return (mkResponse 404 (failure "Duplicate field value entered"))
  /\ errorHandler (Err.mk (Some "ValidationError") (Some 11000) None None
                          (Some [("name", "Please add a name")]))
     = Return (mkResponse 400 (failure "Please add a name")).
Proof.
  split.
  - exact (proj1 (later_mark_wins (Err.mk (Some "CastError") (Some 11000) None None None))
                 eq_refl eq_refl).
  - exact (proj2 (later_mark_wins
                    (Err.mk (Some "ValidationError") (Some 11000) None None
                            (Some [("name", "Please add a name")])))
                 [("name", "Please add a name")] eq_refl eq_refl ltac:(discriminate)).
Defined.

(** ** What a request does to the world *)

Ltac split_cases :=
  cbv beta iota;
  repeat (match goal with
          | |- context [match ?x with _ => _ end] =>
              lazymatch x with
              | context [match _ with _ => _ end] => fail
              | _ => destruct x eqn:?
              end
          end; cbv beta iota).

(** A handler behind a GET route leaves the collections and the upload
    directory as they were, whatever it answers. *)
Theorem reads_change_nothing (sys : Collaborators) (fn : Controller)
        (req : Request) (w : World) :
  In fn (read_handlers sys) -> fst (asyncHandler fn req w) = w.
Proof.
  intros Hin. simpl in Hin.
  destruct Hin as [<-|[<-|[<-|[<-|[<-|[]]]]]];
    unfold getBootcamps; unfold_handler; unfold Course.find_bootcamp;
    split_cases; reflexivity.
Qed.

Lemma reads_change_nothing_witness :
  fst (asyncHandler (getCourses Sample.sys)
         (Sample.with_bootcampId (Sample.request "" Sample.publisher)
                                 (Bootcamp._id Sample.devworks))
         Fixture.two_courses)
  = Fixture.two_courses.
Proof.
  apply (reads_change_nothing Sample.sys). simpl. auto 10.
Defined.

(** A request that ends in an error, handed to [next] or thrown, leaves the
    collections and the upload directory as they were: no handler writes
    before its last check. *)
Theorem error_changes_nothing (sys : Collaborators) (fn : Controller)
        (req : Request) (w w' : World) (e : Err.t) :
  In fn (read_handlers sys ++ write_handlers sys) ->
  asyncHandler fn req w = (w', Next e) ->
  w' = w.
Proof.
  intros Hin. simpl in Hin.
  repeat (destruct Hin as [<-|Hin];
          [ unfold getBootcamps; unfold_handler;
            unfold Course.find_bootcamp, Bootcamp.create, Course.create,
              Bootcamp.findByIdAndUpdate, Course.findByIdAndUpdate;
            split_cases; intros [= <-]; try reflexivity; discriminate | ]).
  contradiction.
Qed.

Lemma error_changes_nothing_witness :
  fst (asyncHandler (updateCourse Sample.sys)
         (Sample.request Sample.unknownId Sample.publisher) Sample.world)
  = Sample.world.
Proof.
  apply (error_changes_nothing Sample.sys (updateCourse Sample.sys)
           (Sample.request Sample.unknownId Sample.publisher) Sample.world _
           (ErrorResponse (MStr "No course with the id: 5d713995b721c3bb38c1f5ff") None)).
  - simpl. auto 20.
  - reflexivity.
Defined.

(** ** Collections: lookup after a write *)

Lemma find_app_fresh {A : Type} (f : A -> bool) (l : list A) (a : A) :
  find f l = None -> f a = true -> find f (l ++ [a]) = Some a.
Proof.
  intros Hnone Ha. induction l as [|x l IH]; simpl in *.
  - now rewrite Ha.
  - destruct (f x); [discriminate|auto].
Qed.

Lemma find_app_old {A : Type} (f : A -> bool) (l : list A) (a : A) :
  f a = false -> find f (l ++ [a]) = find f l.
Proof.
  intros Ha. induction l as [|x l IH]; simpl.
  - now rewrite Ha.
  - destruct (f x); auto.
Qed.

Lemma Course_found_id (id : string) (store : list Course.doc) (c : Course.doc) :
  find (Course.has_id id) store = Some c -> Course._id c = id.
Proof.
  intros H. apply find_some in H. destruct H as [_ H]. now apply String.eqb_eq in H.
Qed.

Lemma Course_find_update (id : string) (b : Body) (store : list Course.doc) :
  find (Course.has_id id) (Course.update id b store)
  = option_map (Course.assign b) (find (Course.has_id id) store).
Proof.
  induction store as [|d rest IH]; simpl; [reflexivity|].
  destruct (Course.has_id id d) eqn:E; simpl.
  - unfold Course.has_id in *. simpl. now rewrite E.
  - now rewrite E.
Qed.

Lemma Course_find_update_other (id id' : string) (b : Body) (store : list Course.doc) :
  id' <> id ->
  find (Course.has_id id') (Course.update id b store) = find (Course.has_id id') store.
Proof.
  intros Hne. induction store as [|d rest IH]; simpl; [reflexivity|].
  destruct (Course.has_id id d) eqn:E; simpl.
  - apply String.eqb_eq in E.
    assert (Hx : Course.has_id id' d = false).
    { unfold Course.has_id. apply String.eqb_neq. congruence. }
    change (Course.has_id id' (Course.assign b d)) with (Course.has_id id' d).
    now rewrite Hx.
  - now rewrite IH.
Qed.

Lemma Course_length_update (id : string) (b : Body) (store : list Course.doc) :
  length (Course.update id b store) = length store.
Proof.
  induction store as [|d rest IH]; simpl; [reflexivity|].
  destruct (Course.has_id id d); simpl; auto.
Qed.

Lemma Course_find_remove (d : Course.doc) (store : list Course.doc) :
  find (Course.has_id (Course._id d)) (Course.remove d store) = None.
Proof.
  unfold Course.remove. induction store as [|x rest IH]; simpl; [reflexivity|].
  destruct (Course.has_id (Course._id d) x) eqn:E; simpl; [exact IH|].
  now rewrite E.
Qed.

Lemma Course_find_remove_other (id' : string) (d : Course.doc) (store : list Course.doc) :
  id' <> Course._id d ->
  find (Course.has_id id') (Course.remove d store) = find (Course.has_id id') store.
Proof.
  intros Hne. unfold Course.remove.
  induction store as [|x rest IH]; simpl; [reflexivity|].
  destruct (Course.has_id (Course._id d) x) eqn:E; simpl.
  - apply String.eqb_eq in E.
    assert (Hx : Course.has_id id' x = false).
    { unfold Course.has_id. apply String.eqb_neq. congruence. }
    now rewrite Hx.
  - now rewrite IH.
Qed.

Lemma Bootcamp_found_id (id : string) (store : list Bootcamp.doc) (b : Bootcamp.doc) :
  find (Bootcamp.has_id id) store = Some b -> Bootcamp._id b = id.
Proof.
  intros H. apply find_some in H. destruct H as [_ H]. now apply String.eqb_eq in H.
Qed.

Lemma Bootcamp_find_update (id : string) (b : Body) (store : list Bootcamp.doc) :
  find (Bootcamp.has_id id) (Bootcamp.update id b store)
  = option_map (Bootcamp.assign b) (find (Bootcamp.has_id id) store).
Proof.
  induction store as [|d rest IH]; simpl; [reflexivity|].
  destruct (Bootcamp.has_id id d) eqn:E; simpl.
  - unfold Bootcamp.has_id in *. simpl. now rewrite E.
  - now rewrite E.
Qed.

Lemma Bootcamp_find_update_other (id id' : string) (b : Body) (store : list Bootcamp.doc) :
  id' <> id ->
  find (Bootcamp.has_id id') (Bootcamp.update id b store)
  = find (Bootcamp.has_id id') store.
Proof.
  intros Hne. induction store as [|d rest IH]; simpl; [reflexivity|].
  destruct (Bootcamp.has_id id d) eqn:E; simpl.
  - apply String.eqb_eq in E.
    assert (Hx : Bootcamp.has_id id' d = false).
    { unfold Bootcamp.has_id. apply String.eqb_neq. congruence. }
    change (Bootcamp.has_id id' (Bootcamp.assign b d)) with (Bootcamp.has_id id' d).
    now rewrite Hx.
  - now rewrite IH.
Qed.

Lemma Bootcamp_find_remove (d : Bootcamp.doc) (store : list Bootcamp.doc) :
  find (Bootcamp.has_id (Bootcamp._id d)) (Bootcamp.remove d store) = None.
Proof.
  unfold Bootcamp.remove. induction store as [|x rest IH]; simpl; [reflexivity|].
  destruct (Bootcamp.has_id (Bootcamp._id d) x) eqn:E; simpl; [exact IH|].
  now rewrite E.
Qed.

Lemma Bootcamp_find_remove_other (id' : string) (d : Bootcamp.doc)
      (store : list Bootcamp.doc) :
  id' <> Bootcamp._id d ->
  find (Bootcamp.has_id id') (Bootcamp.remove d store)
  = find (Bootcamp.has_id id') store.
Proof.
  intros Hne. unfold Bootcamp.remove.
  induction store as [|x rest IH]; simpl; [reflexivity|].
  destruct (Bootcamp.has_id (Bootcamp._id d) x) eqn:E; simpl.
  - apply String.eqb_eq in E.
    assert (Hx : Bootcamp.has_id id' x = false).
    { unfold Bootcamp.has_id. apply String.eqb_neq. congruence. }
    now rewrite Hx.
  - now rewrite IH.
Qed.

(** ** Courses *)

(** With a bootcamp identifier in the path, [getCourses] answers 200 with
    a Success Envelope whose data is the stored courses of that bootcamp
    and no other, in the order of the collection, and whose [count] is
    their number; nothing is changed. *)
Theorem getCourses_of_bootcamp (sys : Collaborators) (req : Request) (w : World)
        (b : string) :
  params_bootcampId req = Some b ->
  b <> "" ->
  isObjectId sys b = true ->
  let listed := filter (fun c => String.eqb (Course.bootcamp c) b) (courses w) in
  serve (getCourses sys) req w
  = (w, Return (mkResponse 200
                  (JObj [("success", JBool true);
                         ("count", JNum (Z.of_nat (length listed)));
                         ("data", JArr (map Course.toJSON listed))])))
  /\ (forall c, In c listed <-> In c (courses w) /\ Course.bootcamp c = b)
  /\ success_envelope (JObj [("success", JBool true);
                             ("count", JNum (Z.of_nat (length listed)));
                             ("data", JArr (map Course.toJSON listed))]) = true.
Proof.
  intros Hparam Hne Hid listed. subst listed.
  split; [|split; [|reflexivity]].
  - unfold_handler. unfold Course.find_bootcamp, truthy, show. rewrite Hparam.
    apply String.eqb_neq in Hne. rewrite Hne. simpl. rewrite Hid. reflexivity.
  - intros c. rewrite filter_In, String.eqb_eq. reflexivity.
Qed.

Lemma getCourses_of_bootcamp_witness :
  serve (getCourses Sample.sys)
        (Sample.with_bootcampId (Sample.request "" Sample.publisher)
                                (Bootcamp._id Sample.devworks))
        Fixture.two_courses
  = (Fixture.two_courses,
     Return (mkResponse 200
               (JObj [("success", JBool true);
                      ("count", JNum 1);
                      ("data", JArr [Course.toJSON Sample.frontend])]))).
Proof.
  exact (proj1 (getCourses_of_bootcamp Sample.sys
                  (Sample.with_bootcampId (Sample.request "" Sample.publisher)
                                          (Bootcamp._id Sample.devworks))
                  Fixture.two_courses (Bootcamp._id Sample.devworks)
                  eq_refl ltac:(discriminate) eq_refl)).
Defined.

(** The course that [addCourse] stores belongs to the bootcamp of the path,
    whatever [bootcamp] the body names; it is added at the end of the
    collection and sent back, with status 200. *)
Theorem addCourse_parent_from_path (sys : Collaborators) (req : Request) (w : World)
        (b : string) (parent : Bootcamp.doc) :
  params_bootcampId req = Some b ->
  isObjectId sys b = true ->
  find (Bootcamp.has_id b) (bootcamps w) = Some parent ->
  courseFault sys (set_field "bootcamp" b (body req)) (courses w) = None ->
  exists c,
    Course.bootcamp c = b
    /\ Course._id c = newCourseId sys (courses w)
    /\ Course.title c = field_or "title" (set_field "bootcamp" b (body req)) ""
    /\ snd (serve (addCourse sys) req w)
       = Return (mkResponse 200 (JObj [("sucess", JBool true);
                                       ("data", Course.toJSON c)]))
    /\ courses (fst (serve (addCourse sys) req w)) = (courses w ++ [c])%list.
Proof.
  intros Hparam Hid Hfind Hfault.
  assert (Hrun : serve (addCourse sys) req w
                 = (set_courses w
                      (courses w
                       ++ [Course.assign (set_field "bootcamp" b (body req))
                             (Course.mk (newCourseId sys (courses w)) "" "")])%list,
                    Return (mkResponse 200
                              (JObj [("sucess", JBool true);
                                     ("data",
                                      Course.toJSON
                                        (Course.assign (set_field "bootcamp" b (body req))
                                           (Course.mk (newCourseId sys (courses w))
                                                      "" "")))])))).
  { unfold_handler. rewrite Hparam. unfold Bootcamp_findById, await, Bootcamp.findById.
    rewrite Hid, Hfind. unfold Course.create. rewrite Hfault. reflexivity. }
  eexists. split; [|split; [|split; [|split]]]; cycle 3.
  - rewrite Hrun. reflexivity.
  - rewrite Hrun. reflexivity.
  - unfold Course.assign, field_or. simpl. now rewrite lookup_set_field.
  - reflexivity.
  - reflexivity.
Qed.

Lemma addCourse_parent_from_path_witness :
  exists c,
    Course.bootcamp c = Bootcamp._id Sample.devworks
    /\ courses (fst (serve (addCourse Sample.sys)
                       (Sample.with_body
                          (Sample.with_bootcampId (Sample.request "" Sample.stranger)
                                                  (Bootcamp._id Sample.devworks))
                          [("title", "Node"); ("bootcamp", "5d713995b721c3bb38c1f5d1")])
                       Sample.world))
       = [Sample.frontend; c].
Proof.
  destruct (addCourse_parent_from_path Sample.sys
              (Sample.with_body
                 (Sample.with_bootcampId (Sample.request "" Sample.stranger)
                                         (Bootcamp._id Sample.devworks))
                 [("title", "Node"); ("bootcamp", "5d713995b721c3bb38c1f5d1")])
              Sample.world (Bootcamp._id Sample.devworks) Sample.devworks
              eq_refl eq_refl eq_refl eq_refl) as (c & Hparent & _ & _ & _ & Hstore).
  exists c. split; [exact Hparent|exact Hstore].
Defined.

(** When the path names no bootcamp, or one that is not stored, [addCourse]
    hands [next] an Error Value without a status code (the 404 is the
    second argument of [next]): the answer is a 500 and no course is
    stored. *)
Theorem addCourse_without_bootcamp (sys : Collaborators) (req : Request) (w : World) :
  params_bootcampId req = None
  \/ (exists b, params_bootcampId req = Some b
                /\ isObjectId sys b = true
                /\ find (Bootcamp.has_id b) (bootcamps w) = None) ->
  serve (addCourse sys) req w
  = (w, Return (mkResponse 500
                  (failure ("No bootcamp with the id: " ++ show (params_bootcampId req))))).
Proof.
  intros [Hnone|(b & Hparam & Hid & Hfind)]; unfold_handler.
  - rewrite Hnone. reflexivity.
  - rewrite Hparam. unfold Bootcamp_findById, await, Bootcamp.findById.
    rewrite Hid, Hfind. reflexivity.
Qed.

Lemma addCourse_without_bootcamp_witness :
  serve (addCourse Sample.sys)
        (Sample.with_body
           (Sample.with_bootcampId (Sample.request "" Sample.publisher) Sample.unknownId)
           [("title", "Node")])
        Sample.world
  = (Sample.world,
     Return (mkResponse 500 (failure "No bootcamp with the id: 5d713995b721c3bb38c1f5ff"))).
Proof.
  apply (addCourse_without_bootcamp Sample.sys).
  right. exists Sample.unknownId. repeat split.
Defined.

(** An update that the storage layer accepts replaces the stored course by
    the one with the fields of the body assigned; that document is sent
    back and is what a later lookup of the identifier finds, while every
    other course and the number of courses stay as they were. *)
Theorem updateCourse_then_find (sys : Collaborators) (req : Request) (w : World)
        (c : Course.doc) :
  isObjectId sys (params_id req) = true ->
  find (Course.has_id (params_id req)) (courses w) = Some c ->
  courseFault sys (body req) (courses w) = None ->
  exists w',
    serve (updateCourse sys) req w
    = (w', Return (mkResponse 200
                     (JObj [("sucess", JBool true);
                            ("data", Course.toJSON (Course.assign (body req) c))])))
    /\ find (Course.has_id (params_id req)) (courses w')
       = Some (Course.assign (body req) c)
    /\ (forall other, other <> params_id req ->
                      find (Course.has_id other) (courses w')
                      = find (Course.has_id other) (courses w))
    /\ length (courses w') = length (courses w).
Proof.
  intros Hid Hfind Hfault.
  exists (set_courses w (Course.update (params_id req) (body req) (courses w))).
  split; [|split; [|split]].
  - unfold_handler. rewrite Hid, Hfind. unfold Course.findByIdAndUpdate.
    rewrite Hid, Hfault. cbv zeta. rewrite Course_find_update, Hfind. reflexivity.
  - simpl. now rewrite Course_find_update, Hfind.
  - intros other Hne. simpl. now apply Course_find_update_other.
  - simpl. apply Course_length_update.
Qed.

Lemma updateCourse_then_find_witness :
  exists w',
    serve (updateCourse Sample.sys)
          (Sample.with_body (Sample.request (Course._id Sample.frontend) Sample.stranger)
                            [("title", "React")])
          Fixture.two_courses
    = (w', Return (mkResponse 200
                     (JObj [("sucess", JBool true);
                            ("data", Course.toJSON
                                       (Course.mk (Course._id Sample.frontend)
                                                  (Bootcamp._id Sample.devworks)
                                                  "React"))])))
    /\ map Course.title (courses w') = ["React"; "Back End Web Development"].
Proof.
  destruct (updateCourse_then_find Sample.sys
              (Sample.with_body (Sample.request (Course._id Sample.frontend) Sample.stranger)
                                [("title", "React")])
              Fixture.two_courses Sample.frontend eq_refl eq_refl eq_refl)
    as (w' & Hrun & _).
  exists w'. split; [exact Hrun|].
  vm_compute in Hrun. injection Hrun as <-. reflexivity.
Defined.

(** [deleteCourse] removes the stored course and sends it back: a later
    lookup of the identifier finds nothing, and every other course is as it
    was. *)
Theorem deleteCourse_then_find (sys : Collaborators) (req : Request) (w : World)
        (c : Course.doc) :
  isObjectId sys (params_id req) = true ->
  find (Course.has_id (params_id req)) (courses w) = Some c ->
  exists w',
    serve (deleteCourse sys) req w
    = (w', Return (mkResponse 200 (JObj [("sucess", JBool true);
                                         ("data", Course.toJSON c)])))
    /\ find (Course.has_id (params_id req)) (courses w') = None
    /\ (forall other, other <> params_id req ->
                      find (Course.has_id other) (courses w')
                      = find (Course.has_id other) (courses w)).
Proof.
  intros Hid Hfind.
  exists (set_courses w (Course.remove c (courses w))).
  pose proof (Course_found_id _ _ _ Hfind) as Hc.
  split; [|split].
  - unfold_handler. rewrite Hid, Hfind. reflexivity.
  - simpl. rewrite <- Hc. apply Course_find_remove.
  - intros other Hne. simpl. apply Course_find_remove_other. congruence.
Qed.

Lemma deleteCourse_then_find_witness :
  exists w',
    serve (deleteCourse Sample.sys)
          (Sample.request (Course._id Sample.frontend) Sample.stranger)
          Fixture.two_courses
    = (w', Return (mkResponse 200 (JObj [("sucess", JBool true);
                                         ("data", Course.toJSON Sample.frontend)])))
    /\ courses w' = [Fixture.backend].
Proof.
  destruct (deleteCourse_then_find Sample.sys
              (Sample.request (Course._id Sample.frontend) Sample.stranger)
              Fixture.two_courses Sample.frontend eq_refl eq_refl)
    as (w' & Hrun & _).
  exists w'. split; [exact Hrun|].
  vm_compute in Hrun. injection Hrun as <-. reflexivity.
Defined.

(** The handlers that change courses, and the photo upload, never read
    [req.user]: the same request from any other principal has the same
    effect and the same answer.  Who owns the bootcamp plays no part. *)
Theorem principal_is_not_consulted (sys : Collaborators) (req : Request) (u : User)
        (w : World) :
  addCourse sys (with_user req u) w = addCourse sys req w
  /\ updateCourse sys (with_user req u) w = updateCourse sys req w
  /\ deleteCourse sys (with_user req u) w = deleteCourse sys req w
  /\ bootcampPhotoUpload sys (with_user req u) w = bootcampPhotoUpload sys req w.
Proof. repeat split. Qed.

(** ** Bootcamps *)

(** The four handlers that start by fetching the bootcamp of the path
    answer 404, with the identifier in the message, when it is well formed
    and no bootcamp has it; nothing is changed, whoever asks and whatever
    the body or the files. *)
Theorem unknown_bootcamp_is_404 (sys : Collaborators) (fn : Controller)
        (req : Request) (w : World) :
  In fn [getBootcampById sys; updateBootcamp sys; deleteBootcamp sys;
         bootcampPhotoUpload sys] ->
  isObjectId sys (params_id req) = true ->
  find (Bootcamp.has_id (params_id req)) (bootcamps w) = None ->
  serve fn req w
  = (w, Return (mkResponse 404
                  (failure ("Bootcamp not found with the id of " ++ params_id req)))).
Proof.
  intros Hin Hid Hfind. simpl in Hin.
  destruct Hin as [<-|[<-|[<-|[<-|[]]]]];
    try solve [apply (bootcamp_not_found sys); [simpl; auto|assumption|assumption]].
  unfold_handler. rewrite Hid, Hfind. reflexivity.
Qed.

Lemma unknown_bootcamp_is_404_witness :
  serve (bootcampPhotoUpload Sample.sys)
        (Sample.with_file (Sample.request Sample.unknownId Fixture.admin) Fixture.png)
        Sample.world
  = (Sample.world,
     Return (mkResponse 404
               (failure "Bootcamp not found with the id of 5d713995b721c3bb38c1f5ff"))).
Proof.
  apply (unknown_bootcamp_is_404 Sample.sys (bootcampPhotoUpload Sample.sys)
           (Sample.with_file (Sample.request Sample.unknownId Fixture.admin) Fixture.png)
           Sample.world).
  - simpl. auto 10.
  - reflexivity.
  - reflexivity.
Defined.

(** For a stored bootcamp, [updateBootcamp] answers 401 and changes
    nothing when the principal is neither its owner nor an admin; for the
    owner or an admin, an update that the storage layer accepts is
    answered 200 with the document the body was assigned to, which is what
    a later [getBootcampById] of the same identifier returns, and every
    other bootcamp is as it was. *)
Theorem updateBootcamp_then_get (sys : Collaborators) (req : Request) (w : World)
        (b : Bootcamp.doc) :
  isObjectId sys (params_id req) = true ->
  find (Bootcamp.has_id (params_id req)) (bootcamps w) = Some b ->
  (Bootcamp.user b <> id (user req) ->
   role (user req) <> "admin" ->
   exists msg, serve (updateBootcamp sys) req w = (w, Return (mkResponse 401 (failure msg))))
  /\ (Bootcamp.user b = id (user req) \/ role (user req) = "admin" ->
      bootcampFault sys (body req) (bootcamps w) = None ->
      exists w' data,
        data = Bootcamp.toJSON (Bootcamp.assign (body req) b)
        /\ serve (updateBootcamp sys) req w
           = (w', Return (mkResponse 200 (JObj [("success", JBool true); ("data", data)])))
        /\ serve (getBootcampById sys) req w'
           = (w', Return (mkResponse 200 (JObj [("success", JBool true); ("data", data)])))
        /\ (forall other, other <> params_id req ->
                          find (Bootcamp.has_id other) (bootcamps w')
                          = find (Bootcamp.has_id other) (bootcamps w))).
Proof.
  intros Hid Hfind. split.
  - intros Howner Hrole. eexists.
    now apply updateBootcamp_unauthorized with (b := b).
  - intros Hauth Hfault.
    exists (set_bootcamps w (Bootcamp.update (params_id req) (body req) (bootcamps w))).
    eexists. split; [reflexivity|].
    assert (Hnew : find (Bootcamp.has_id (params_id req))
                        (Bootcamp.update (params_id req) (body req) (bootcamps w))
                   = Some (Bootcamp.assign (body req) b)).
    { now rewrite Bootcamp_find_update, Hfind. }
    split; [|split].
    + rewrite (updateBootcamp_authorized sys req w b Hid Hfind Hauth Hfault), Hnew.
      reflexivity.
    + apply getBootcampById_envelope; [exact Hid|exact Hnew].
    + intros other Hne. simpl. now apply Bootcamp_find_update_other.
Qed.

Lemma updateBootcamp_then_get_witness :
  (exists msg,
      serve (updateBootcamp Sample.sys)
            (Sample.with_body (Sample.request (Bootcamp._id Sample.devworks) Sample.stranger)
                              [("name", "Mine now")])
            Sample.world
      = (Sample.world, Return (mkResponse 401 (failure msg))))
  /\ (exists w' data,
         serve (updateBootcamp Sample.sys)
               (Sample.with_body
                  (Sample.request (Bootcamp._id Sample.devworks) Sample.publisher)
                  [("name", "Devworks Academy")])
               Sample.world
         = (w', Return (mkResponse 200 (JObj [("success", JBool true); ("data", data)])))
         /\ serve (getBootcampById Sample.sys)
                  (Sample.request (Bootcamp._id Sample.devworks) Sample.newcomer) w'
            = (w', Return (mkResponse 200 (JObj [("success", JBool true);
                                                 ("data", data)])))).
Proof.
  split.
  - apply (updateBootcamp_then_get Sample.sys
             (Sample.with_body
                (Sample.request (Bootcamp._id Sample.devworks) Sample.stranger)
                [("name", "Mine now")])
             Sample.world Sample.devworks eq_refl eq_refl); discriminate.
  - destruct (proj2 (updateBootcamp_then_get Sample.sys
                       (Sample.with_body
                          (Sample.request (Bootcamp._id Sample.devworks) Sample.publisher)
                          [("name", "Devworks Academy")])
                       Sample.world Sample.devworks eq_refl eq_refl)
                    (or_introl eq_refl) eq_refl)
      as (w' & data & _ & Hput & Hget & _).
    exists w', data. split; [exact Hput|exact Hget].
Defined.

(** An admin's [deleteBootcamp] of a stored bootcamp is answered 200 with
    empty data; afterwards [getBootcampById] of that identifier answers
    404, and every other bootcamp is still found. *)
Theorem admin_delete_then_get (sys : Collaborators) (req : Request) (w : World)
        (b : Bootcamp.doc) :
  isObjectId sys (params_id req) = true ->
  find (Bootcamp.has_id (params_id req)) (bootcamps w) = Some b ->
  role (user req) = "admin" ->
  exists w',
    serve (deleteBootcamp sys) req w
    = (w', Return (mkResponse 200 (JObj [("success", JBool true); ("data", JObj [])])))
    /\ serve (getBootcampById sys) req w'
       = (w', Return (mkResponse 404
                        (failure ("Bootcamp not found with the id of " ++ params_id req))))
    /\ (forall other, other <> params_id req ->
                      find (Bootcamp.has_id other) (bootcamps w')
                      = find (Bootcamp.has_id other) (bootcamps w)).
Proof.
  intros Hid Hfind Hrole.
  exists (set_bootcamps w (Bootcamp.remove b (bootcamps w))).
  pose proof (Bootcamp_found_id _ _ _ Hfind) as Hb.
  split; [|split].
  - unfold_handler. rewrite Hid, Hfind, Hrole. rewrite andb_false_r. reflexivity.
  - apply (bootcamp_not_found sys); [simpl; auto|exact Hid|].
    simpl. rewrite <- Hb. apply Bootcamp_find_remove.
  - intros other Hne. simpl. apply Bootcamp_find_remove_other. congruence.
Qed.

Lemma admin_delete_then_get_witness :
  exists w',
    serve (deleteBootcamp Sample.sys)
          (Sample.request (Bootcamp._id Sample.devworks) Fixture.admin) Sample.world
    = (w', Return (mkResponse 200 (JObj [("success", JBool true); ("data", JObj [])])))
    /\ bootcamps w' = [].
Proof.
  destruct (admin_delete_then_get Sample.sys
              (Sample.request (Bootcamp._id Sample.devworks) Fixture.admin)
              Sample.world Sample.devworks eq_refl eq_refl eq_refl)
    as (w' & Hrun & _).
  exists w'. split; [exact Hrun|].
  vm_compute in Hrun. injection Hrun as <-. reflexivity.
Defined.

(** A creation that passes the gate and that the storage layer accepts
    stores a bootcamp owned by the principal, whatever [user] the body
    names, and answers 201 with it; when the new identifier is well formed
    and not yet in use, [getBootcampById] of it returns the same data. *)
Theorem createBootcamp_then_get (sys : Collaborators) (req get : Request) (w : World) :
  isObjectId sys (id (user req)) = true ->
  is_some (find (Bootcamp.owned_by (id (user req))) (bootcamps w))
  && negb (String.eqb (role (user req)) "admin") = false ->
  bootcampFault sys (set_field "user" (id (user req)) (body req)) (bootcamps w) = None ->
  params_id get = newBootcampId sys (bootcamps w) ->
  isObjectId sys (params_id get) = true ->
  find (Bootcamp.has_id (params_id get)) (bootcamps w) = None ->
  exists w' d,
    Bootcamp.user d = id (user req)
    /\ Bootcamp._id d = params_id get
    /\ serve (createBootcamp sys) req w
       = (w', Return (mkResponse 201 (JObj [("sucess", JBool true);
                                            ("data", Bootcamp.toJSON d)])))
    /\ bootcamps w' = (bootcamps w ++ [d])%list
    /\ serve (getBootcampById sys) get w'
       = (w', Return (mkResponse 200 (JObj [("success", JBool true);
                                            ("data", Bootcamp.toJSON d)]))).
Proof.
  intros Hid Hgate Hfault Hget Hwf Hfresh.
  set (d := Bootcamp.assign (set_field "user" (id (user req)) (body req))
              (Bootcamp.mk (newBootcampId sys (bootcamps w)) "" "" "" "no-photo.jpg")).
  exists (set_bootcamps w (bootcamps w ++ [d])%list), d.
  split; [|split; [|split; [|split]]].
  - unfold d, Bootcamp.assign, field_or. simpl. now rewrite lookup_set_field.
  - symmetry. exact Hget.
  - unfold_handler. rewrite Hid, Hgate. unfold Bootcamp.create. rewrite Hfault.
    reflexivity.
  - reflexivity.
  - apply getBootcampById_envelope; [exact Hwf|].
    simpl. apply find_app_fresh; [exact Hfresh|].
    unfold Bootcamp.has_id, d. simpl. rewrite Hget. apply String.eqb_refl.
Qed.

Lemma createBootcamp_then_get_witness :
  exists w' d,
    Bootcamp.user d = id Sample.newcomer
    /\ serve (createBootcamp Sample.sys)
             (Sample.with_body (Sample.request "" Sample.newcomer)
                               [("name", "ModernTech"); ("user", id Sample.publisher)])
             Sample.world
       = (w', Return (mkResponse 201 (JObj [("sucess", JBool true);
                                            ("data", Bootcamp.toJSON d)])))
    /\ serve (getBootcampById Sample.sys)
             (Sample.request "5d713995b721c3bb38c1f5d9" Sample.stranger) w'
       = (w', Return (mkResponse 200 (JObj [("success", JBool true);
                                            ("data", Bootcamp.toJSON d)]))).
Proof.
  destruct (createBootcamp_then_get Sample.sys
              (Sample.with_body (Sample.request "" Sample.newcomer)
                                [("name", "ModernTech"); ("user", id Sample.publisher)])
              (Sample.request "5d713995b721c3bb38c1f5d9" Sample.stranger)
              Sample.world eq_refl eq_refl eq_refl eq_refl eq_refl eq_refl)
    as (w' & d & Hu & _ & Hpost & _ & Hget).
  exists w', d. split; [exact Hu|]. split; [exact Hpost|exact Hget].
Defined.

(** The limit of one bootcamp is not applied to an admin: each creation
    that the storage layer accepts is answered 201 and gives the admin one
    bootcamp more, however many there were. *)
Theorem admin_creates_without_limit (sys : Collaborators) (req : Request) (w : World) :
  isObjectId sys (id (user req)) = true ->
  role (user req) = "admin" ->
  bootcampFault sys (set_field "user" (id (user req)) (body req)) (bootcamps w) = None ->
  exists w' data,
    serve (createBootcamp sys) req w
    = (w', Return (mkResponse 201 (JObj [("sucess", JBool true); ("data", data)])))
    /\ owned (id (user req)) (bootcamps w') = S (owned (id (user req)) (bootcamps w)).
Proof.
  intros Hid Hrole Hfault. do 2 eexists. split.
  - unfold_handler. rewrite Hid, Hrole. rewrite andb_false_r.
    unfold Bootcamp.create. rewrite Hfault. reflexivity.
  - simpl. rewrite owned_snoc, created_is_owned. apply Nat.add_1_r.
Qed.

Lemma admin_creates_without_limit_witness :
  exists w' data,
    serve (createBootcamp Sample.sys)
          (Sample.with_body (Sample.request "" Fixture.admin) [("name", "Second")])
          (mkWorld [Bootcamp.mk "5d713995b721c3bb38c1f5d2" (id Fixture.admin)
                                "First" "" "no-photo.jpg"] [] [])
    = (w', Return (mkResponse 201 (JObj [("sucess", JBool true); ("data", data)])))
    /\ owned (id Fixture.admin) (bootcamps w') = 2%nat.
Proof.
  destruct (admin_creates_without_limit Sample.sys
              (Sample.with_body (Sample.request "" Fixture.admin) [("name", "Second")])
              (mkWorld [Bootcamp.mk "5d713995b721c3bb38c1f5d2" (id Fixture.admin)
                                    "First" "" "no-photo.jpg"] [] [])
              eq_refl eq_refl eq_refl) as (w' & data & Hrun & Hown).
  exists w', data. split; [exact Hrun|exact Hown].
Defined.

(** ** Radius search without a place *)

(** When the geocoder finds no place for the postal code, the handler
    reads [latitude] from [undefined]: the answer is a 500.  When the
    geocoder itself fails, its error goes to the error handler.  The
    storage layer is not queried in either case. *)
Theorem radius_without_place (sys : Collaborators) (req : Request) (w : World) :
  (geocode sys (params_zipcode req) = Return [] ->
   exists msg,
     serve (getBootcampsInRadius sys) req w = (w, Return (mkResponse 500 (failure msg))))
  /\ (forall e,
         geocode sys (params_zipcode req) = Throw e ->
         serve (getBootcampsInRadius sys) req w = (w, errorHandler e)).
Proof.
  split.
  - intros Hgeo. eexists. unfold_handler. rewrite Hgeo. reflexivity.
  - intros e Hgeo. unfold_handler. rewrite Hgeo. reflexivity.
Qed.

Lemma radius_without_place_witness :
  exists msg,
    serve (getBootcampsInRadius Sample.sys)
          (mkRequest "" None "00000" "10" Sample.publisher [] None JNull) Sample.world
    = (Sample.world, Return (mkResponse 500 (failure msg))).
Proof.
  exact (proj1 (radius_without_place Sample.sys
                  (mkRequest "" None "00000" "10" Sample.publisher [] None JNull)
                  Sample.world) eq_refl).
Defined.

(** ** Photo upload: the remaining paths *)

(** [req.files] without a [file] entry (the upload was sent under another
    field name) passes the check for an attached file; reading its media
    type throws, the answer is a 500 and nothing is written. *)
Theorem upload_under_another_name (sys : Collaborators) (req : Request) (w : World)
        (b : Bootcamp.doc) (fs : list (string * File.t)) :
  isObjectId sys (params_id req) = true ->
  find (Bootcamp.has_id (params_id req)) (bootcamps w) = Some b ->
  files req = Some fs ->
  lookup "file" fs = None ->
  exists msg,
    serve (bootcampPhotoUpload sys) req w = (w, Return (mkResponse 500 (failure msg))).
Proof.
  intros Hid Hfind Hfiles Hfile. eexists.
  unfold_handler. rewrite Hid, Hfind, Hfiles, Hfile. reflexivity.
Qed.

Lemma upload_under_another_name_witness :
  exists msg,
    serve (bootcampPhotoUpload Sample.sys)
          (mkRequest (Bootcamp._id Sample.devworks) None "" "" Sample.publisher []
                     (Some [("photo", Fixture.png)]) JNull)
          Sample.world
    = (Sample.world, Return (mkResponse 500 (failure msg))).
Proof.
  exact (upload_under_another_name Sample.sys
           (mkRequest (Bootcamp._id Sample.devworks) None "" "" Sample.publisher []
                      (Some [("photo", Fixture.png)]) JNull)
           Sample.world Sample.devworks [("photo", Fixture.png)]
           eq_refl eq_refl eq_refl eq_refl).
Defined.

(** An image that is not over the maximum (any image at all when no
    maximum is configured) is moved to the upload directory under the name
    "photo_", the bootcamp's identifier and the extension of the original
    name; that name is recorded as the bootcamp's [photo] and sent back
    with status 200, and every other bootcamp is as it was. *)
Theorem upload_records_photo (sys : Collaborators) (req : Request) (w : World)
        (b : Bootcamp.doc) (fs : list (string * File.t)) (f : File.t) :
  isObjectId sys (params_id req) = true ->
  find (Bootcamp.has_id (params_id req)) (bootcamps w) = Some b ->
  files req = Some fs ->
  lookup "file" fs = Some f ->
  String.prefix "image" (File.mimetype f) = true ->
  (MAX_FILE_UPLOAD sys = None
   \/ exists m, MAX_FILE_UPLOAD sys = Some m /\ File.size f <= m) ->
  let name := "photo_" ++ Bootcamp._id b ++ ext sys (File.name f) in
  let path := FILE_UPLOAD_PATH sys ++ "/" ++ name in
  mv sys (File.set_name f name) path = None ->
  exists w' b',
    serve (bootcampPhotoUpload sys) req w
    = (w', Return (mkResponse 200 (JObj [("sucess", JBool true); ("data", JStr name)])))
    /\ disk w' = (path, File.set_name f name) :: disk w
    /\ find (Bootcamp.has_id (params_id req)) (bootcamps w') = Some b'
    /\ Bootcamp.photo b' = name
    /\ (Bootcamp._id b', Bootcamp.user b', Bootcamp.name b', Bootcamp.description b')
       = (Bootcamp._id b, Bootcamp.user b, Bootcamp.name b, Bootcamp.description b)
    /\ (forall other, other <> params_id req ->
                      find (Bootcamp.has_id other) (bootcamps w')
                      = find (Bootcamp.has_id other) (bootcamps w)).
Proof.
  intros Hid Hfind Hfiles Hfile Himg Hsize name path Hmv.
  assert (Hbig : too_large sys (File.size f) = false).
  { unfold too_large. destruct Hsize as [->|(m & -> & Hle)]; [reflexivity|].
    apply Z.ltb_ge. exact Hle. }
  exists (set_bootcamps (write_file w path (File.set_name f name))
            (Bootcamp.update (params_id req) [("photo", name)] (bootcamps w))).
  exists (Bootcamp.assign [("photo", name)] b).
  split; [|split; [|split; [|split; [|split]]]].
  - unfold_handler. rewrite Hid, Hfind, Hfiles, Hfile, Himg, Hbig.
    cbn [negb]. cbv zeta.
    change (File.name (File.set_name f ("photo_" ++ Bootcamp._id b
                                        ++ ext sys (File.name f)))) with name.
    fold name. fold path. rewrite Hmv.
    unfold Bootcamp.findByIdAndUpdate. rewrite Hid. reflexivity.
  - reflexivity.
  - simpl. now rewrite Bootcamp_find_update, Hfind.
  - reflexivity.
  - reflexivity.
  - intros other Hne. simpl. now apply Bootcamp_find_update_other.
Qed.

Lemma upload_records_photo_witness :
  exists w' b',
    serve (bootcampPhotoUpload Fixture.no_limit)
          (Sample.with_file (Sample.request (Bootcamp._id Sample.devworks) Sample.stranger)
                            (File.mk "me.png" "image/png" 5000000000))
          Sample.world
    = (w', Return (mkResponse 200
                     (JObj [("sucess", JBool true);
                            ("data", JStr "photo_5d713995b721c3bb38c1f5d0.png")])))
    /\ find (Bootcamp.has_id (Bootcamp._id Sample.devworks)) (bootcamps w') = Some b'
    /\ Bootcamp.photo b' = "photo_5d713995b721c3bb38c1f5d0.png".
Proof.
  destruct (upload_records_photo Fixture.no_limit
              (Sample.with_file
                 (Sample.request (Bootcamp._id Sample.devworks) Sample.stranger)
                 (File.mk "me.png" "image/png" 5000000000))
              Sample.world Sample.devworks _ _ eq_refl eq_refl eq_refl eq_refl eq_refl
              (or_introl eq_refl) eq_refl)
    as (w' & b' & Hrun & _ & Hfind & Hphoto & _).
  exists w', b'. split; [exact Hrun|]. split; [exact Hfind|exact Hphoto].
Defined.

(** When the move of the file fails, the answer is a 500 with the text
    "Problem with file upload", not the error of the move; no file is
    recorded and the bootcamp keeps its photo. *)
Theorem failed_move_is_500 (sys : Collaborators) (req : Request) (w : World)
        (b : Bootcamp.doc) (fs : list (string * File.t)) (f : File.t) (err : Err.t) :
  isObjectId sys (params_id req) = true ->
  find (Bootcamp.has_id (params_id req)) (bootcamps w) = Some b ->
  files req = Some fs ->
  lookup "file" fs = Some f ->
  String.prefix "image" (File.mimetype f) = true ->
  too_large sys (File.size f) = false ->
  let name := "photo_" ++ Bootcamp._id b ++ ext sys (File.name f) in
  mv sys (File.set_name f name) (FILE_UPLOAD_PATH sys ++ "/" ++ name) = Some err ->
  serve (bootcampPhotoUpload sys) req w
  = (w, Return (mkResponse 500 (failure "Problem with file upload"))).
Proof.
  intros Hid Hfind Hfiles Hfile Himg Hbig name Hmv.
  unfold_handler. rewrite Hid, Hfind, Hfiles, Hfile, Himg, Hbig.
  cbn [negb]. cbv zeta.
  change (File.name (File.set_name f ("photo_" ++ Bootcamp._id b
                                      ++ ext sys (File.name f)))) with name.
  fold name. rewrite Hmv. reflexivity.
Qed.

Lemma failed_move_is_500_witness :
  serve (bootcampPhotoUpload Fixture.failing_move)
        (Sample.with_file (Sample.request (Bootcamp._id Sample.devworks) Sample.publisher)
                          Fixture.png)
        Sample.world
  = (Sample.world, Return (mkResponse 500 (failure "Problem with file upload"))).
Proof.
  exact (failed_move_is_500 Fixture.failing_move
           (Sample.with_file
              (Sample.request (Bootcamp._id Sample.devworks) Sample.publisher)
              Fixture.png)
           Sample.world Sample.devworks _ _ Fixture.diskFull
           eq_refl eq_refl eq_refl eq_refl eq_refl eq_refl eq_refl).
Defined.

(** ** Faults of the storage layer *)

(** A bootcamp identifier in the path that does not cast is answered 404,
    "Resource not found", by [getCourses] and by [addCourse], and nothing
    is stored. *)
Theorem malformed_parent_is_404 (sys : Collaborators) (req : Request) (w : World)
        (b : string) :
  params_bootcampId req = Some b ->
  b <> "" ->
  isObjectId sys b = false ->
  serve (getCourses sys) req w
  = (w, Return (mkResponse 404 (failure "Resource not found")))
  /\ serve (addCourse sys) req w
     = (w, Return (mkResponse 404 (failure "Resource not found"))).
Proof.
  intros Hparam Hne Hid. apply String.eqb_neq in Hne. split.
  - unfold_handler. unfold Course.find_bootcamp, truthy, show. rewrite Hparam, Hne.
    simpl. rewrite Hid. reflexivity.
  - unfold_handler. rewrite Hparam. unfold Bootcamp_findById, await, Bootcamp.findById.
    rewrite Hid. reflexivity.
Qed.

Lemma malformed_parent_is_404_witness :
  serve (addCourse Sample.sys)
        (Sample.with_body (Sample.with_bootcampId (Sample.request "" Sample.publisher) "17")
                          [("title", "Node")])
        Sample.world
  = (Sample.world, Return (mkResponse 404 (failure "Resource not found"))).
Proof.
  exact (proj2 (malformed_parent_is_404 Sample.sys
                  (Sample.with_body
                     (Sample.with_bootcampId (Sample.request "" Sample.publisher) "17")
                     [("title", "Node")])
                  Sample.world "17" eq_refl ltac:(discriminate) eq_refl)).
Defined.

(** A write that the storage layer rejects (a validator, a unique index)
    stores nothing, and the client receives what the error handler makes
    of the storage layer's error: for the update of a bootcamp by its owner
    or an admin, for the creation of a course under a stored bootcamp, and
    for the update of a stored course. *)
Theorem rejected_write_is_normalized (sys : Collaborators) (req : Request) (w : World)
        (e : Err.t) :
  (forall b,
      isObjectId sys (params_id req) = true ->
      find (Bootcamp.has_id (params_id req)) (bootcamps w) = Some b ->
      Bootcamp.user b = id (user req) \/ role (user req) = "admin" ->
      bootcampFault sys (body req) (bootcamps w) = Some e ->
      serve (updateBootcamp sys) req w = (w, errorHandler e))
  /\ (forall p parent,
         params_bootcampId req = Some p ->
         isObjectId sys p = true ->
         find (Bootcamp.has_id p) (bootcamps w) = Some parent ->
         courseFault sys (set_field "bootcamp" p (body req)) (courses w) = Some e ->
         serve (addCourse sys) req w = (w, errorHandler e))
  /\ (forall c,
         isObjectId sys (params_id req) = true ->
         find (Course.has_id (params_id req)) (courses w) = Some c ->
         courseFault sys (body req) (courses w) = Some e ->
         serve (updateCourse sys) req w = (w, errorHandler e)).
Proof.
  split; [|split].
  - intros b Hid Hfind Hauth Hfault. unfold_handler. rewrite Hid, Hfind.
    assert (Hgate : negb (String.eqb (Bootcamp.user b) (id (user req)))
                    && negb (String.eqb (role (user req)) "admin") = false).
    { destruct Hauth as [H|H]; rewrite H, String.eqb_refl; simpl;
        auto using andb_false_r. }
    rewrite Hgate. unfold Bootcamp.findByIdAndUpdate. rewrite Hid, Hfault. reflexivity.
  - intros p parent Hparam Hid Hfind Hfault. unfold_handler. rewrite Hparam.
    unfold Bootcamp_findById, await, Bootcamp.findById. rewrite Hid, Hfind.
    unfold Course.create. rewrite Hfault. reflexivity.
  - intros c Hid Hfind Hfault. unfold_handler. rewrite Hid, Hfind.
    unfold Course.findByIdAndUpdate. rewrite Hid, Hfault. reflexivity.
Qed.

Lemma rejected_write_is_normalized_witness :
  serve (addCourse Sample.sys)
        (Sample.with_bootcampId (Sample.request "" Sample.publisher)
                                (Bootcamp._id Sample.devworks))
        Sample.world
  = (Sample.world, Return (mkResponse 400 (failure "Please add a course title"))).
Proof.
  exact (proj1 (proj2 (rejected_write_is_normalized Sample.sys
                         (Sample.with_bootcampId (Sample.request "" Sample.publisher)
                                                 (Bootcamp._id Sample.devworks))
                         Sample.world
                         (Err.mk (Some "ValidationError") None
                                 (Some "Course validation failed") None
                                 (Some [("title", "Please add a course title")]))))
               (Bootcamp._id Sample.devworks) Sample.devworks
               eq_refl eq_refl eq_refl eq_refl).
Defined.
